(** * acss_fronted: the API wrapper (api.py) and the user client (user/main.py)

    A shallow embedding of the two Python modules of the charging-station
    client, and the properties of its transport wrapper, login handler,
    request handlers and status poller.

    Python values are embedded as [pyval]; a Python [str] is the byte string
    of its UTF-8 encoding, so [==] on [str] is [String.eqb].  Code that
    raises returns [Raise]; the process state (the module globals
    [api.TOKEN] and [last_state], the widgets, the toasts shown and the HTTP
    requests issued) is threaded explicitly as a [world]. *)

From Stdlib Require Import ZArith String.
From Stdlib Require Import Floats.SpecFloat.
From stdpp Require Import base option list gmap strings pretty.

Set Warnings "-register-all".
Local Open Scope string_scope.
Local Open Scope list_scope.
Local Open Scope Z_scope.

(** ** Python values *)

(** What [requests.Response.json()] can return, and what the handlers pass
    around: [None], [bool], [int], [float], [str], [list] and [dict] with
    [str] keys. *)
Inductive pyval : Type :=
| PNone
| PBool (b : bool)
| PInt (n : Z)
| PFloat (f : spec_float)
| PStr (s : string)
| PList (l : list pyval)
| PDict (d : gmap string pyval).

(** The exception classes that matter to the two modules: the built-in ones,
    those of [requests.exceptions] with the bases the library gives them, and
    [ApiError], which api.py derives from [BaseException].  [OtherError] is
    any further class deriving from [Exception]. *)
Inductive exc_class : Type :=
| BaseException | Exception | KeyboardInterrupt
| TypeError | ValueError | LookupError | KeyError | AttributeError | OSError
| RequestException | HTTPError | ConnectionError | ProxyError | SSLError
| Timeout | ConnectTimeout | ReadTimeout
| InvalidJSONError | JSONDecodeError | TooManyRedirects | InvalidURL
| ChunkedEncodingError
| ApiError
| OtherError (name : string).

Global Instance exc_class_eq_dec : EqDecision exc_class.
Proof. solve_decision. Defined.

(** The direct bases of a class ([class ConnectTimeout(ConnectionError, Timeout)]). *)
Definition bases (c : exc_class) : list exc_class :=
  match c with
  | BaseException => []
  | Exception | KeyboardInterrupt | ApiError => [BaseException]
  | TypeError | ValueError | LookupError | AttributeError | OSError
  | OtherError _ => [Exception]
  | KeyError => [LookupError]
  | RequestException => [OSError]
  | HTTPError | ConnectionError | Timeout | InvalidJSONError
  | TooManyRedirects | ChunkedEncodingError => [RequestException]
  | InvalidURL => [RequestException; ValueError]
  | ProxyError | SSLError => [ConnectionError]
  | ConnectTimeout => [ConnectionError; Timeout]
  | ReadTimeout => [Timeout]
  | JSONDecodeError => [InvalidJSONError; ValueError]
  end.

(** [issubclass c d]; the hierarchy above is at most seven classes deep. *)
Fixpoint issubclass_upto (depth : nat) (c d : exc_class) : bool :=
  bool_decide (c = d) ||
  match depth with
  | O => false
  | S depth' => existsb (fun b => issubclass_upto depth' b d) (bases c)
  end.

Definition issubclass : exc_class -> exc_class -> bool := issubclass_upto 7.

(** A raised exception: its class and its first argument ([e.args[0]], or
    [None] where the modules never read it). *)
Record py_exc : Type := Exc { exc_cls : exc_class; exc_arg : pyval }.

Definition isinstance (e : py_exc) (c : exc_class) : bool :=
  issubclass (exc_cls e) c.

Inductive res (A : Type) : Type :=
| Ret (a : A)
| Raise (e : py_exc).
Arguments Ret {A} a.
Arguments Raise {A} e.

(** ** Built-in operations, as far as the modules use them *)

(** The value of a finite double is [(-1)^s * m * 2^e]; Python compares a
    [float] with an [int] exactly. *)
Definition float_eq_int (f : spec_float) (n : Z) : bool :=
  match f with
  | S754_zero _ => n =? 0
  | S754_finite s m e =>
      let v := if s then Z.neg m else Z.pos m in
      if 0 <=? e then v * 2 ^ e =? n else v =? n * 2 ^ (- e)
  | S754_infinity _ | S754_nan => false
  end.

(** [v == n] for an [int] literal [n]. *)
Definition py_eq_int (v : pyval) (n : Z) : bool :=
  match v with
  | PInt z => z =? n
  | PBool b => (if b then 1 else 0) =? n
  | PFloat f => float_eq_int f n
  | _ => false
  end.

(** [v == s] for a [str] literal [s]. *)
Definition py_eq_str (v : pyval) (s : string) : bool :=
  match v with
  | PStr t => String.eqb t s
  | _ => false
  end.

(** Truth value of [v] in [if v:]. *)
Definition py_truthy (v : pyval) : bool :=
  match v with
  | PNone => false
  | PBool b => b
  | PInt z => negb (z =? 0)
  | PFloat (S754_zero _) => false
  | PFloat _ => true
  | PStr s => negb (String.eqb s "")
  | PList l => match l with [] => false | _ :: _ => true end
  | PDict d => negb (bool_decide (d = ∅))
  end.

(** [len(v) == 0].  The modules only ever compare [len] with [0], and a
    [str] has no characters exactly when its encoding has no bytes. *)
Definition py_len_is_zero (v : pyval) : res bool :=
  match v with
  | PStr s => Ret (String.eqb s "")
  | PList l => Ret (match l with [] => true | _ :: _ => false end)
  | PDict d => Ret (bool_decide (d = ∅))
  | PNone | PBool _ | PInt _ | PFloat _ => Raise (Exc TypeError PNone)
  end.

(** [v[k]] for a [str] key [k]: only a [dict] can be indexed by a [str]. *)
Definition py_getitem (v : pyval) (k : string) : res pyval :=
  match v with
  | PDict d =>
      match d !! k with
      | Some x => Ret x
      | None => Raise (Exc KeyError (PStr k))
      end
  | _ => Raise (Exc TypeError PNone)
  end.

(** [v.get(k)]. *)
Definition py_get (v : pyval) (k : string) : res pyval :=
  match v with
  | PDict d => Ret (default PNone (d !! k))
  | _ => Raise (Exc AttributeError PNone)
  end.

Section Str.
(** [str(v)] for a [float], a [list] or a [dict] is Python's [repr]; it is
    not part of the two modules and is taken as given. *)
Variable py_repr : pyval -> string.

(** [str(v)], which is also what an f-string field [{v}] formats to. *)
Definition py_str (v : pyval) : string :=
  match v with
  | PStr s => s
  | PNone => "None"
  | PBool true => "True"
  | PBool false => "False"
  | PInt z => pretty z
  | PFloat _ | PList _ | PDict _ => py_repr v
  end.
End Str.

(** ** The process state *)

Inductive http_method : Type := GET | POST.

(** One call of [requests.get] or [requests.post] with its keyword
    arguments; [None] is an argument that was not passed. *)
Record request : Type := Request {
  req_method : http_method;
  req_url : string;
  req_json : option pyval;
  req_headers : option (gmap string string)
}.

(** What the call and the [.json()] on its response do: raise, or return the
    decoded body. *)
Inductive net_outcome : Type :=
| NetRaise (e : py_exc)
| NetJson (body : pyval).

(** The toasts of [QToaster.showMessage]: [ErrorToast] is the call in an
    [except api.ApiError as e] handler, showing [str(e)]; [Notice] is a call
    with a literal text. *)
Inductive toast : Type :=
| ErrorToast (text : string)
| Notice (text : string).

(** The texts the user has entered in the window. *)
Record form : Type := Form {
  username_input : string;
  password_input : string;
  charge_mode_box : string;
  require_amount_input : string;
  battery_capacity_input : string
}.

Record world : Type := World {
  TOKEN : pyval;                    (* api.TOKEN *)
  last_state : Z;                   (* main.last_state *)
  window : form;                    (* the input widgets *)
  labels : gmap string string;      (* the text of each label, by attribute name *)
  toasts : list toast;              (* the toasts shown so far, oldest first *)
  sent : list request               (* the HTTP requests issued so far, oldest first *)
}.

Definition set_window (f : form) (w : world) : world :=
  World (TOKEN w) (last_state w) f (labels w) (toasts w) (sent w).
Definition set_TOKEN (v : pyval) (w : world) : world :=
  World v (last_state w) (window w) (labels w) (toasts w) (sent w).
Definition set_last_state (n : Z) (w : world) : world :=
  World (TOKEN w) n (window w) (labels w) (toasts w) (sent w).
Definition set_label (name text : string) (w : world) : world :=
  World (TOKEN w) (last_state w) (window w) (<[name := text]> (labels w))
        (toasts w) (sent w).
Definition add_toast (t : toast) (w : world) : world :=
  World (TOKEN w) (last_state w) (window w) (labels w) (toasts w ++ [t]) (sent w).
Definition add_sent (r : request) (w : world) : world :=
  World (TOKEN w) (last_state w) (window w) (labels w) (toasts w) (sent w ++ [r]).

(** ** Computations that read and write the state and may raise *)

Definition M (A : Type) : Type := world -> res A * world.

Definition ret {A} (a : A) : M A := fun w => (Ret a, w).
Definition raise {A} (e : py_exc) : M A := fun w => (Raise e, w).
Definition bind {A B} (m : M A) (k : A -> M B) : M B :=
  fun w =>
    match m w with
    | (Ret a, w') => k a w'
    | (Raise e, w') => (Raise e, w')
    end.
Definition lift {A} (r : res A) : M A := fun w => (r, w).

(** Reading a global or a widget, and writing the state. *)
Definition gets {A} (f : world -> A) : M A := fun w => (Ret (f w), w).
Definition modify (f : world -> world) : M unit := fun w => (Ret tt, f w).

Declare Scope py_scope.
Delimit Scope py_scope with py.
Notation "'let*' x ':=' m 'in' k" := (bind m (fun x => k))
  (at level 10, x name, m at level 100, k at level 200) : py_scope.
Notation "'let*' ' p ':=' m 'in' k" := (bind m (fun x => match x with p => k end))
  (at level 10, p pattern, m at level 100, k at level 200) : py_scope.
Local Open Scope py_scope.

(** [try: m  except C1 as e: h1 e  except C2 as e: h2 e ...]: the first
    clause whose class the exception is an instance of handles it; with no
    such clause it goes on propagating. *)
Fixpoint except {A} (clauses : list (exc_class * (py_exc -> M A)))
    (e : py_exc) : M A :=
  match clauses with
  | [] => raise e
  | (c, h) :: rest => if isinstance e c then h e else except rest e
  end.

Definition try_ {A} (m : M A) (clauses : list (exc_class * (py_exc -> M A)))
    : M A :=
  fun w =>
    match m w with
    | (Ret a, w') => (Ret a, w')
    | (Raise e, w') => except clauses e w'
    end.

(** ** api.py *)

Module api.

Definition BASE_URL : string := "http://127.0.0.1:8000".

(** [ApiError(msg)]. *)
Definition ApiError_ (msg : pyval) : py_exc := Exc ApiError msg.

Section Transport.
Variable py_repr : pyval -> string.
(** The remote service and the network in between, as seen from
    [requests]. *)
Variable net : request -> net_outcome.

(** [requests.post(...).json()] and [requests.get(...).json()]. *)
Definition send (r : request) : M pyval :=
  fun w =>
    match net r with
    | NetRaise e => (Raise e, add_sent r w)
    | NetJson body => (Ret body, add_sent r w)
    end.

Definition api_post (path : string) (json : pyval) : M pyval :=
  let url := BASE_URL +:+ path in
  let* resp := try_
    (let* token := gets TOKEN in
     let* empty := lift (py_len_is_zero token) in
     if negb empty then
       let header : gmap string string :=
         {[ "Authorization" := "Bearer " +:+ py_str py_repr token ]} in
       send (Request POST url (Some json) (Some header))
     else
       send (Request POST url (Some json) None))
    [ (ConnectTimeout, fun _ => raise (ApiError_ (PStr "连接超时")));
      (ConnectionError, fun _ => raise (ApiError_ (PStr "连接错误")));
      (ReadTimeout, fun _ => raise (ApiError_ (PStr "数据读取超时")));
      (HTTPError, fun _ => raise (ApiError_ (PStr "Http错误")));
      (BaseException, fun _ => raise (ApiError_ (PStr "网络错误"))) ] in
  let* code := lift (py_getitem resp "code") in
  if py_eq_int code (-1) then
    let* message := lift (py_getitem resp "message") in
    raise (ApiError_ message)
  else
    lift (py_get resp "data").

Definition api_get (path : string) : M pyval :=
  let url := BASE_URL +:+ path in
  let* resp := try_
    (let* token := gets TOKEN in
     let* empty := lift (py_len_is_zero token) in
     if negb empty then
       let header : gmap string string :=
         {[ "Authorization" := "Bearer " +:+ py_str py_repr token ]} in
       send (Request GET url None (Some header))
     else
       send (Request GET url None None))
    [ (ConnectTimeout, fun _ => raise (ApiError_ (PStr "连接超时")));
      (ConnectionError, fun _ => raise (ApiError_ (PStr "连接错误")));
      (ReadTimeout, fun _ => raise (ApiError_ (PStr "数据读取超时")));
      (HTTPError, fun _ => raise (ApiError_ (PStr "Http错误")));
      (BaseException, fun _ => raise (ApiError_ (PStr "网络错误"))) ] in
  let* code := lift (py_getitem resp "code") in
  if py_eq_int code (-1) then
    let* message := lift (py_getitem resp "message") in
    raise (ApiError_ message)
  else
    lift (py_get resp "data").

Definition login (username password : string) : M (pyval * pyval) :=
  let* data := api_post "/login"
            (PDict {[ "username" := PStr username;
                      "password" := PStr password ]}) in
  let* token := lift (py_getitem data "token") in
  let* is_admin := lift (py_getitem data "is_admin") in
  ret (token, is_admin).

Definition time : M (pyval * pyval) :=
  let* data := api_get "/time" in
  let* datetime := lift (py_getitem data "datetime") in
  let* timestamp := lift (py_getitem data "timestamp") in
  ret (datetime, timestamp).

Definition register (username password : string) : M unit :=
  let* _ := api_post "/user/register"
    (PDict {[ "username" := PStr username;
              "password" := PStr password;
              "re_password" := PStr password ]}) in
  ret tt.

Definition submit_charging_request
    (charge_mode require_amount battery_size : string) : M unit :=
  let* _ := api_post "/user/submit_charging_request"
    (PDict {[ "charge_mode" := PStr charge_mode;
              "require_amount" := PStr require_amount;
              "battery_size" := PStr battery_size ]}) in
  ret tt.

Definition edit_charging_request
    (charge_mode require_amount : string) : M unit :=
  let* _ := api_post "/user/edit_charging_request"
    (PDict {[ "charge_mode" := PStr charge_mode;
              "require_amount" := PStr require_amount ]}) in
  ret tt.

Definition end_charging_request : M unit :=
  let* _ := api_get "/user/end_charging_request" in
  ret tt.

Definition query_bill (date : pyval) : M pyval :=
  api_post "/user/query_bill" (PDict {[ "date" := date ]}).

Definition query_order_detail (bill_id : pyval) : M pyval :=
  api_post "/user/query_order_detail" (PDict {[ "bill_id" := bill_id ]}).

Definition preview_queue : M pyval :=
  api_get "/user/preview_queue".

Definition query_all_piles_stat : M pyval :=
  api_get "/admin/query_all_piles_stat".

Definition admin_status_report : M pyval :=
  api_get "/admin/query_report".

Definition admin_query_queue : M pyval :=
  api_get "/admin/query_queue".

Definition update_pile_stat (pile_id status : pyval) : M pyval :=
  api_post "/admin/update_pile"
    (PDict {[ "pile_id" := pile_id; "status" := status ]}).
End Transport.

End api.

(** ** user/main.py *)

Module main.

(** [QToaster.showMessage(window.window, text)]. *)
Definition showMessage (t : toast) : M unit := modify (add_toast t).

(** The byte-order mark U+FEFF, and U+FFFE, the mark in the other byte
    order. *)
Definition byte_order_mark : string :=
  String (Ascii.ascii_of_nat 239)
    (String (Ascii.ascii_of_nat 187) (String (Ascii.ascii_of_nat 191) "")).

Definition reversed_mark : string :=
  String (Ascii.ascii_of_nat 239)
    (String (Ascii.ascii_of_nat 191) (String (Ascii.ascii_of_nat 190) "")).

Fixpoint strip_prefix (p s : string) : option string :=
  match p, s with
  | EmptyString, _ => Some s
  | String a p', String b s' =>
      if Ascii.eqb a b then strip_prefix p' s' else None
  | String _ _, EmptyString => None
  end.

(** The text Qt makes of a [str] it is handed: a byte-order mark in front is
    read as a mark and dropped.  (A [str] that starts with the reversed mark
    is read by Qt in the other byte order; that is not modelled, and the
    properties of the displayed texts leave such a [str] out.) *)
Definition qt_text (s : string) : string :=
  default s (strip_prefix byte_order_mark s).

(** A [str] that starts with one of the two marks. *)
Definition starts_with_mark (s : string) : bool :=
  match strip_prefix byte_order_mark s, strip_prefix reversed_mark s with
  | None, None => false
  | _, _ => true
  end.

(** [window.<name>.setText(v)]: Qt takes a [str], and [None] as the empty
    text; anything else is a [TypeError]. *)
Definition setText (name : string) (v : pyval) : M unit :=
  match v with
  | PStr s => modify (set_label name (qt_text s))
  | PNone => modify (set_label name "")
  | _ => raise (Exc TypeError PNone)
  end.

Section Slots.
Variable py_repr : pyval -> string.
Variable net : request -> net_outcome.

(** The handler all the slots share:
    [except api.ApiError as e: QToaster.showMessage(window.window, str(e)); return].
    [None] is the [return]. *)
Definition toast_and_return {A} : list (exc_class * (py_exc -> M (option A))) :=
  [ (ApiError,
     fun e =>
       let* _ := showMessage (ErrorToast (py_str py_repr (exc_arg e))) in
       ret None) ].

Definition on_login_clicked : M unit :=
  let* r := try_
    (let* inputs := gets window in
     let* r := api.login py_repr net (username_input inputs)
                 (password_input inputs) in
     ret (Some r))
    toast_and_return in
  match r with
  | None => ret tt
  | Some (token, is_admin) =>
      if py_truthy is_admin then
        showMessage (Notice "请使用用户账号")
      else
        let role := "USER" in
        let* _ := modify (set_TOKEN token) in
        let* _ := setText "user_role_label" (PStr role) in
        let* _ := setText "user_state_label" (PStr "已登陆") in
        showMessage (Notice "登陆成功")
  end.

Definition on_register_clicked : M unit :=
  let* r := try_
    (let* inputs := gets window in
     let* _ := api.register py_repr net (username_input inputs)
                 (password_input inputs) in
     ret (Some tt))
    toast_and_return in
  match r with
  | None => ret tt
  | Some _ => showMessage (Notice "注册成功")
  end.

Definition on_logout_clicked : M unit :=
  let* _ := modify (set_TOKEN (PStr "")) in
  let* _ := setText "user_role_label" (PStr "无") in
  let* _ := setText "user_state_label" (PStr "未登陆") in
  showMessage (Notice "成功注销").

(** Lines 114-126 of [preview_callback]: the guard on the token and the
    two calls.  [None] is a [return]. *)
Definition preview_fetch : M (option (pyval * (pyval * pyval))) :=
  let* token := gets TOKEN in
  let* empty := lift (py_len_is_zero token) in
  if empty then ret None
  else
    let* r := try_
      (let* data := api.preview_queue py_repr net in ret (Some data))
      toast_and_return in
    match r with
    | None => ret None
    | Some data =>
        let* r := try_
          (let* now_time := api.time py_repr net in ret (Some now_time))
          toast_and_return in
        match r with
        | None => ret None
        | Some now_time => ret (Some (data, now_time))
        end
    end.

(** Lines 127-136: queue length, request number and time. *)
Definition preview_show_queue (data : pyval) (now_time : pyval * pyval)
    : M unit :=
  let* queue_len := lift (py_getitem data "queue_len") in
  let* _ :=
    if negb (py_eq_int queue_len (-1)) then
      setText "queue_position_label"
        (PStr ("前有" +:+ py_str py_repr queue_len +:+ "人"))
    else
      setText "queue_position_label" (PStr "") in
  let* charge_id := lift (py_getitem data "charge_id") in
  let* _ :=
    if py_truthy charge_id then setText "request_id_label" charge_id
    else ret tt in
  setText "time_label" (fst now_time).

(** Lines 137-153: the state.  [data['cur_state']] is read once here; the
    source reads it again in each [elif], with the same result. *)
Definition preview_show_state (data : pyval) : M unit :=
  let* cur_state := lift (py_getitem data "cur_state") in
  if py_eq_str cur_state "NOTCHARGING" then
    let* _ := setText "status_label" (PStr "没有充电请求") in
    let* last := gets last_state in
    if last =? 1 then
      let* _ := showMessage (Notice "充电结束 请查询详单") in
      modify (set_last_state 0)
    else ret tt
  else if py_eq_str cur_state "WAITINGSTAGE1" then
    setText "status_label" (PStr "在等候区等待")
  else if py_eq_str cur_state "WAITINGSTAGE2" then
    setText "status_label" (PStr "在充电区等待")
  else if py_eq_str cur_state "CHARGING" then
    let* _ := setText "status_label" (PStr "正在充电") in
    modify (set_last_state 1)
  else if py_eq_str cur_state "CHANGEMODEREQUEUE" then
    setText "status_label" (PStr "充电模式更改 重新排队")
  else if py_eq_str cur_state "FAULTREQUEUE" then
    setText "status_label" (PStr "充电桩故障")
  else ret tt.

Definition preview_callback : M unit :=
  let* r := preview_fetch in
  match r with
  | None => ret tt
  | Some (data, now_time) =>
      let* _ := preview_show_queue data now_time in
      preview_show_state data
  end.

Definition on_submit_clicked : M unit :=
  let* r := try_
    (let* inputs := gets window in
     let mode_text := charge_mode_box inputs in
     let mode := if String.eqb mode_text "快充" then "F" else "T" in
     let* _ := api.submit_charging_request py_repr net mode
                 (require_amount_input inputs)
                 (battery_capacity_input inputs) in
     ret (Some tt))
    toast_and_return in
  match r with
  | None => ret tt
  | Some _ => showMessage (Notice "请求提交成功")
  end.

Definition on_edit_request_clicked : M unit :=
  let* r := try_
    (let* inputs := gets window in
     let mode_text := charge_mode_box inputs in
     let mode := if String.eqb mode_text "快充" then "F" else "T" in
     let* _ := api.edit_charging_request py_repr net mode
                 (require_amount_input inputs) in
     ret (Some tt))
    toast_and_return in
  match r with
  | None => ret tt
  | Some _ => showMessage (Notice "修改充电请求成功")
  end.

Definition on_end_request_clicked : M unit :=
  let* r := try_
    (let* _ := api.end_charging_request py_repr net in ret (Some tt))
    toast_and_return in
  match r with
  | None => ret tt
  | Some _ => showMessage (Notice "已结束请求")
  end.

(** Lines 57-64 of [on_checklist_clicked]: the time of the service, and the
    bills of that date.  [None] is the [return]; the lines after these fill
    [bill_table] with what is returned here. *)
Definition on_checklist_clicked_fetch : M (option pyval) :=
  try_
    (let* now_time := api.time py_repr net in
     let dt := fst now_time in
     let* data := api.query_bill py_repr net dt in
     ret (Some data))
    toast_and_return.
End Slots.

(** The state when the event loop starts: [TOKEN = ''] (api.py, line 9)
    and [last_state = 0] (line 81), nothing shown and nothing sent. *)
Definition start (f : form) (texts : gmap string string) : world :=
  World (PStr "") 0 f texts [] [].

End main.

(** ** The event loop *)

(** The signals [__main__] connects, each with the service as it answers
    while its slot runs, and the user editing the inputs.  The slots are
    coroutines without a suspension point ([requests] blocks), so each runs
    to its end before the next signal is delivered.  The slot of
    [query_orders_button] fills a table and touches neither [TOKEN] nor
    [last_state]; it is left out. *)
Inductive signal : Type :=
| login_button (net : request -> net_outcome)
| logout_button
| register_button (net : request -> net_outcome)
| submit_request_button (net : request -> net_outcome)
| edit_request_button (net : request -> net_outcome)
| end_request_button (net : request -> net_outcome)
| timer (net : request -> net_outcome)
| user_edit (f : form).

Section Loop.
Variable py_repr : pyval -> string.

Definition slot (s : signal) : M unit :=
  match s with
  | login_button net => main.on_login_clicked py_repr net
  | logout_button => main.on_logout_clicked
  | register_button net => main.on_register_clicked py_repr net
  | submit_request_button net => main.on_submit_clicked py_repr net
  | edit_request_button net => main.on_edit_request_clicked py_repr net
  | end_request_button net => main.on_end_request_clicked py_repr net
  | timer net => main.preview_callback py_repr net
  | user_edit f =>
      modify (set_window f)
  end.

(** An exception that leaves a slot is reported and the loop goes on, with
    whatever the slot had written. *)
Definition deliver (w : world) (s : signal) : world := snd (slot s w).

Definition run (w : world) (ss : list signal) : world :=
  fold_left deliver ss w.
End Loop.

(** ** What a tick observes and shows *)

(** The variants of the charging status, as the service names them in
    [cur_state]. *)
Inductive ChargingStatus : Type :=
| NotCharging | WaitingStage1 | WaitingStage2 | Charging
| ChangeModeRequeue | FaultRequeue.

Global Instance ChargingStatus_eq_dec : EqDecision ChargingStatus.
Proof. solve_decision. Defined.

Definition cur_state_name (v : ChargingStatus) : string :=
  match v with
  | NotCharging => "NOTCHARGING"
  | WaitingStage1 => "WAITINGSTAGE1"
  | WaitingStage2 => "WAITINGSTAGE2"
  | Charging => "CHARGING"
  | ChangeModeRequeue => "CHANGEMODEREQUEUE"
  | FaultRequeue => "FAULTREQUEUE"
  end.

Definition variant_of (cur_state : pyval) : option ChargingStatus :=
  if py_eq_str cur_state "NOTCHARGING" then Some NotCharging
  else if py_eq_str cur_state "WAITINGSTAGE1" then Some WaitingStage1
  else if py_eq_str cur_state "WAITINGSTAGE2" then Some WaitingStage2
  else if py_eq_str cur_state "CHARGING" then Some Charging
  else if py_eq_str cur_state "CHANGEMODEREQUEUE" then Some ChangeModeRequeue
  else if py_eq_str cur_state "FAULTREQUEUE" then Some FaultRequeue
  else None.

Global Instance toast_eq_dec : EqDecision toast.
Proof. solve_decision. Defined.

Global Instance http_method_eq_dec : EqDecision http_method.
Proof. solve_decision. Defined.

(** The toast that reports a finished charging session. *)
Definition completion : toast := Notice "充电结束 请查询详单".

(** The toasts a computation shows and the requests it issues, when run in [w]. *)
Definition shown {A} (m : M A) (w : world) : list toast :=
  drop (length (toasts w)) (toasts (snd (m w))).

Definition requested {A} (m : M A) (w : world) : list request :=
  drop (length (sent w)) (sent (snd (m w))).

Definition completions (ts : list toast) : nat :=
  length (filter (fun t => t = completion) ts).

Section Observation.
Variable py_repr : pyval -> string.

(** The variant a tick observes: the one [cur_state] names when the tick
    gets as far as reading it, that is, when the token is not empty, both
    calls return and the queue is shown. *)
Definition observe (net : request -> net_outcome)
    : M (option ChargingStatus) :=
  let* r := main.preview_fetch py_repr net in
  match r with
  | None => ret None
  | Some (data, now_time) =>
      let* _ := main.preview_show_queue py_repr data now_time in
      let* cur_state := lift (py_getitem data "cur_state") in
      ret (variant_of cur_state)
  end.

Definition observed (net : request -> net_outcome) (w : world)
    : option ChargingStatus :=
  match observe net w with
  | (Ret o, _) => o
  | (Raise _, _) => None
  end.

(** The number of completion toasts a tick shows. *)
Definition notified (net : request -> net_outcome) (w : world) : nat :=
  completions (shown (main.preview_callback py_repr net) w).

(** The observations of the ticks of a run, oldest first. *)
Fixpoint observations (w : world) (ss : list signal) : list ChargingStatus :=
  match ss with
  | [] => []
  | s :: ss' =>
      match s with
      | timer net => option_list (observed net w)
      | _ => []
      end ++ observations (deliver py_repr w s) ss'
  end.
End Observation.

(** The latest observation of a history, and the latest one that is
    [Charging] or [NotCharging]. *)
Definition latest (h : list ChargingStatus) : option ChargingStatus := last h.

Definition charging_or_not (v : ChargingStatus) : bool :=
  match v with
  | Charging | NotCharging => true
  | _ => false
  end.

Definition latest_charging_or_not (h : list ChargingStatus)
    : option ChargingStatus :=
  last (filter (fun v => charging_or_not v = true) h).

(** ** A service that answers as the interface describes *)

Definition envelope (code : Z) (message : string) (data : pyval) : pyval :=
  PDict {[ "code" := PInt code; "message" := PStr message; "data" := data ]}.

Record snapshot : Type := Snapshot {
  cur_state : ChargingStatus;
  queue_len : Z;
  charge_id : option string
}.

Definition snapshot_data (s : snapshot) : pyval :=
  PDict {[ "cur_state" := PStr (cur_state_name (cur_state s));
           "queue_len" := PInt (queue_len s);
           "charge_id" := from_option PStr PNone (charge_id s) ]}.

Definition time_data (datetime : string) (timestamp : Z) : pyval :=
  PDict {[ "datetime" := PStr datetime; "timestamp" := PInt timestamp ]}.

(** The service answering a tick: the snapshot to [/user/preview_queue], the
    time to [/time]. *)
Definition answering (s : snapshot) (datetime : string) (timestamp : Z)
    : request -> net_outcome :=
  fun r =>
    if String.eqb (req_url r) (api.BASE_URL +:+ "/user/preview_queue") then
      NetJson (envelope 0 "" (snapshot_data s))
    else if String.eqb (req_url r) (api.BASE_URL +:+ "/time") then
      NetJson (envelope 0 "" (time_data datetime timestamp))
    else NetJson (envelope 0 "" PNone).

(** The service answering every request with the same body, and the network
    failing every request with the same exception. *)
Definition replying (body : pyval) : request -> net_outcome :=
  fun _ => NetJson body.

Definition failing (e : py_exc) : request -> net_outcome :=
  fun _ => NetRaise e.

(** In the examples no [float], [list] or [dict] is ever formatted. *)
Definition repr_unused : pyval -> string := fun _ => "".

(** A user at the window, the service accepting the login as a user or as
    an administrator, and the service reporting a status. *)
Definition alice : form := Form "alice" "secret" "快充" "50" "60".

Definition login_answer (token : string) (is_admin : bool) : pyval :=
  envelope 0 "" (PDict {[ "token" := PStr token; "is_admin" := PBool is_admin ]}).

Definition reporting (v : ChargingStatus) : request -> net_outcome :=
  answering (Snapshot v 0 (Some "F1")) "2023-06-01 08:00:00" 1685606400.

(** The process right after Alice has logged in. *)
Definition logged_in : world :=
  run repr_unused (main.start alice ∅)
    [login_button (replying (login_answer "tok" false))].

(** ** What the properties are stated with *)

(** The kinds of transport failure the interface tells apart, the class of
    exception each stands for, and the text shown for each. *)
Inductive transport_kind : Type :=
| ConnectionTimedOut | ConnectionFailed | ReadTimedOut | ProtocolError
| UnknownTransportError.

Definition kind_of (c : exc_class) : transport_kind :=
  match c with
  | ConnectTimeout => ConnectionTimedOut
  | ConnectionError | ProxyError | SSLError => ConnectionFailed
  | ReadTimeout => ReadTimedOut
  | HTTPError => ProtocolError
  | _ => UnknownTransportError
  end.

Definition kind_message (k : transport_kind) : string :=
  match k with
  | ConnectionTimedOut => "连接超时"
  | ConnectionFailed => "连接错误"
  | ReadTimedOut => "数据读取超时"
  | ProtocolError => "Http错误"
  | UnknownTransportError => "网络错误"
  end.

(** The value of the [Authorization] header of a request, if it has one. *)
Definition authorization (r : request) : option string :=
  req_headers r ≫= (.!! "Authorization").

(** The field [k] of the JSON body of a request, if it has one. *)
Definition json_field (r : request) (k : string) : option pyval :=
  match req_json r with
  | Some (PDict d) => d !! k
  | _ => None
  end.

(** The request [api_post] and [api_get] issue for a token that has a
    length: with the header when the token is not empty. *)
Definition request_with (py_repr : pyval -> string) (token : pyval)
    (empty : bool) (method : http_method) (path : string)
    (json : option pyval) : request :=
  Request method (api.BASE_URL +:+ path) json
    (if empty then None
     else Some {[ "Authorization" := "Bearer " +:+ py_str py_repr token ]}).

(** What the caller of [api_post] and [api_get] gets for an outcome of the
    request. *)
Definition handed_on (o : net_outcome) : res pyval :=
  match o with
  | NetRaise e =>
      Raise (api.ApiError_ (PStr (kind_message (kind_of (exc_cls e)))))
  | NetJson resp =>
      match py_getitem resp "code" with
      | Raise e => Raise e
      | Ret code =>
          if py_eq_int code (-1) then
            match py_getitem resp "message" with
            | Raise e => Raise e
            | Ret message => Raise (api.ApiError_ message)
            end
          else py_get resp "data"
      end
  end.

(** A computation keeps a relation between the state it starts in and the
    state it leaves. *)
Definition keeps {A} (R : relation world) (m : M A) : Prop :=
  forall w, R w (snd (m w)).

(** Only requests were issued. *)
Definition only_sends : relation world :=
  fun w w' =>
    TOKEN w' = TOKEN w /\ last_state w' = last_state w /\
    window w' = window w /\ labels w' = labels w /\ toasts w' = toasts w.

(** Only labels were set. *)
Definition only_labels : relation world :=
  fun w w' =>
    TOKEN w' = TOKEN w /\ last_state w' = last_state w /\
    window w' = window w /\ toasts w' = toasts w /\ sent w' = sent w.

Definition is_error_toast (t : toast) : Prop := exists text, t = ErrorToast text.

(** The globals and the inputs are as they were, and no toast but error
    toasts was shown. *)
Definition steady : relation world :=
  fun w w' =>
    TOKEN w' = TOKEN w /\ last_state w' = last_state w /\
    window w' = window w /\
    exists ts, toasts w' = toasts w ++ ts /\ Forall is_error_toast ts.

Definition same_last_state : relation world :=
  fun w w' => last_state w' = last_state w.

(** Two states that differ at most in what was shown and sent. *)
Definition alike : relation world :=
  fun w1 w2 =>
    TOKEN w1 = TOKEN w2 /\ last_state w1 = last_state w2 /\
    window w1 = window w2.

(** A computation that reads the globals and the inputs only: from alike
    states it returns the same and leaves alike states. *)
Definition blind {A} (m : M A) : Prop :=
  forall w1 w2, alike w1 w2 ->
    fst (m w1) = fst (m w2) /\ alike (snd (m w1)) (snd (m w2)).

(** What [last_state] is after a tick that observed [o]. *)
Definition latch (last : Z) (o : option ChargingStatus) : Z :=
  match o with
  | Some Charging => 1
  | Some NotCharging => if last =? 1 then 0 else last
  | _ => last
  end.

(** [last_state] is a flag. *)
Definition flag (n : Z) : Prop := n = 0 \/ n = 1.

(** ** What the further properties are stated with *)

(** The exceptions of a failed lookup, [d[k]] or [len(v)]. *)
Definition lookup_error (e : py_exc) : Prop :=
  exc_cls e = KeyError \/ exc_cls e = TypeError.

(** What an operation of api.py may raise. *)
Definition api_or_lookup_error (e : py_exc) : Prop :=
  exc_cls e = ApiError \/ lookup_error e.

(** A computation that raises nothing but exceptions in [P]. *)
Definition raises_only {A} (P : py_exc -> Prop) (m : M A) : Prop :=
  forall w e, fst (m w) = Raise e -> P e.

(** The [Authorization] header that goes with a token: none for the empty
    token and for a token without a length. *)
Definition header_of (py_repr : pyval -> string) (token : pyval)
    : option string :=
  match py_len_is_zero token with
  | Ret false => Some ("Bearer " +:+ py_str py_repr token)
  | _ => None
  end.

(** Requests were issued, each with the header of [token]. *)
Definition sent_with (py_repr : pyval -> string) (token : pyval)
    : relation world :=
  fun w w' =>
    exists rs, sent w' = sent w ++ rs /\
               Forall (fun r => authorization r = header_of py_repr token) rs.

(** The same, by a computation that starts with [token] and leaves it. *)
Definition sends_with (py_repr : pyval -> string) (token : pyval)
    : relation world :=
  fun w w' => TOKEN w = token -> TOKEN w' = token /\ sent_with py_repr token w w'.

Definition same_sent : relation world := fun w w' => sent w' = sent w.

Definition same_TOKEN : relation world := fun w w' => TOKEN w' = TOKEN w.

(** Nothing but the toasts and the requests has changed. *)
Definition only_reports : relation world :=
  fun w w' =>
    TOKEN w' = TOKEN w /\ last_state w' = last_state w /\
    window w' = window w /\ labels w' = labels w.

Definition same_status : relation world :=
  fun w w' => labels w' !! "status_label" = labels w !! "status_label".

Definition same_label (name : string) : relation world :=
  fun w w' => labels w' !! name = labels w !! name.

Definition is_timer (s : signal) : bool :=
  match s with timer _ => true | _ => false end.

(** The two buttons that open and close a session. *)
Definition is_session_button (s : signal) : bool :=
  match s with login_button _ | logout_button => true | _ => false end.

(** The text [preview_callback] puts in [status_label] for each variant. *)
Definition status_text (v : ChargingStatus) : string :=
  match v with
  | NotCharging => "没有充电请求"
  | WaitingStage1 => "在等候区等待"
  | WaitingStage2 => "在充电区等待"
  | Charging => "正在充电"
  | ChangeModeRequeue => "充电模式更改 重新排队"
  | FaultRequeue => "充电桩故障"
  end.

(** How a slot that makes one call reports its outcome [o]: the text [ok]
    when the call returned, the message of the [ApiError] when it raised
    one, and nothing when another exception passes through. *)
Definition reports (py_repr : pyval -> string) (m : M unit) (w : world)
    (o : res pyval) (ok : string) : Prop :=
  match o with
  | Ret _ => fst (m w) = Ret tt /\ shown m w = [Notice ok]
  | Raise e =>
      if isinstance e ApiError
      then fst (m w) = Ret tt /\
           shown m w = [ErrorToast (py_str py_repr (exc_arg e))]
      else fst (m w) = Raise e /\ shown m w = []
  end.

(** The service reporting a status while [/time] answers with [null] for
    the time. *)
Definition reporting_without_time (v : ChargingStatus) : request -> net_outcome :=
  fun r =>
    if String.eqb (req_url r) (api.BASE_URL +:+ "/user/preview_queue") then
      NetJson (envelope 0 "" (snapshot_data (Snapshot v 0 (Some "F1"))))
    else
      NetJson (envelope 0 ""
                 (PDict {[ "datetime" := PNone; "timestamp" := PNone ]})).

(** A slot that issues one request and reports its outcome, writing nothing
    else. *)
Definition reports_one_call (py_repr : pyval -> string)
    (net : request -> net_outcome) (m : M unit) (w : world) (ok : string)
    : Prop :=
  exists r,
    requested m w = [r] /\
    reports py_repr m w (handed_on (net r)) ok /\
    only_reports w (snd (m w)).

(** The service answering [/user/preview_queue] with any [data] and [/time]
    with the time. *)
Definition answering_with (data : pyval) (datetime : string) (timestamp : Z)
    : request -> net_outcome :=
  fun r =>
    if String.eqb (req_url r) (api.BASE_URL +:+ "/user/preview_queue") then
      NetJson (envelope 0 "" data)
    else NetJson (envelope 0 "" (time_data datetime timestamp)).

(** ** Exceptions *)

Lemma isinstance_BaseException e : isinstance e BaseException = true.
Proof. destruct e as [[] arg]; reflexivity. Qed.

(** ** The combinators keep what their parts keep *)

Section Keeps.
Context (R : relation world) `{!PreOrder R}.

Lemma keeps_ret {A} (a : A) : keeps R (ret a).
Proof. intros w; reflexivity. Qed.

Lemma keeps_raise {A} e : keeps R (@raise A e).
Proof. intros w; reflexivity. Qed.

Lemma keeps_lift {A} (r : res A) : keeps R (lift r).
Proof. intros w; reflexivity. Qed.

Lemma keeps_gets {A} (f : world -> A) : keeps R (gets f).
Proof. intros w; reflexivity. Qed.

Lemma keeps_modify f : (forall w, R w (f w)) -> keeps R (modify f).
Proof. intros Hf w; apply Hf. Qed.

Lemma keeps_bind {A B} (m : M A) (k : A -> M B) :
  keeps R m -> (forall a, keeps R (k a)) -> keeps R (bind m k).
Proof.
  intros Hm Hk w. unfold bind. specialize (Hm w).
  destruct (m w) as [[a|e] w']; simpl in *; [|done].
  etransitivity; [exact Hm | apply Hk].
Qed.

Lemma keeps_except {A} (clauses : list (exc_class * (py_exc -> M A))) e :
  Forall (fun ch => forall e, keeps R (ch.2 e)) clauses ->
  keeps R (except clauses e).
Proof.
  induction 1 as [|[c h] rest Hh _ IH]; simpl.
  - apply keeps_raise.
  - destruct (isinstance e c); [apply Hh | apply IH].
Qed.

Lemma keeps_try {A} (m : M A) clauses :
  keeps R m ->
  Forall (fun ch => forall e, keeps R (ch.2 e)) clauses ->
  keeps R (try_ m clauses).
Proof.
  intros Hm Hc w. unfold try_. specialize (Hm w).
  destruct (m w) as [[a|e] w']; simpl in *; [done|].
  etransitivity; [exact Hm | by apply keeps_except].
Qed.
End Keeps.

Lemma keeps_weaken {A} (R R' : relation world) (m : M A) :
  (forall w w', R w w' -> R' w w') -> keeps R m -> keeps R' m.
Proof. intros HR Hm w; apply HR, Hm. Qed.

Global Instance only_sends_preorder : PreOrder only_sends.
Proof.
  split; [by intros w|].
  intros w1 w2 w3 (?&?&?&?&?) (?&?&?&?&?); repeat split; congruence.
Qed.

Global Instance only_labels_preorder : PreOrder only_labels.
Proof.
  split; [by intros w|].
  intros w1 w2 w3 (?&?&?&?&?) (?&?&?&?&?); repeat split; congruence.
Qed.

Global Instance steady_preorder : PreOrder steady.
Proof.
  split.
  - intros w; repeat split; exists []; by rewrite app_nil_r.
  - intros w1 w2 w3 (?&?&?&ts&Hts&?) (?&?&?&ts'&Hts'&?).
    repeat split; try congruence.
    exists (ts ++ ts'); split; [|by apply Forall_app].
    by rewrite Hts', Hts, app_assoc.
Qed.

Global Instance same_last_state_preorder : PreOrder same_last_state.
Proof.
  split; [by intros w|].
  intros w1 w2 w3; unfold same_last_state; congruence.
Qed.

Global Instance alike_equivalence : Equivalence alike.
Proof.
  split.
  - by intros w.
  - intros w1 w2 (?&?&?); by repeat split.
  - intros w1 w2 w3 (?&?&?) (?&?&?); repeat split; congruence.
Qed.

Lemma only_sends_steady w w' : only_sends w w' -> steady w w'.
Proof.
  intros (?&?&?&?&Ht); repeat split; try done.
  exists []; by rewrite app_nil_r.
Qed.

Lemma steady_same_last_state w w' : steady w w' -> same_last_state w w'.
Proof. by intros (?&?&?). Qed.

(** ** The combinators are blind when their parts are *)

Lemma blind_ret {A} (a : A) : blind (ret a).
Proof. by intros w1 w2 H. Qed.

Lemma blind_raise {A} e : blind (@raise A e).
Proof. by intros w1 w2 H. Qed.

Lemma blind_lift {A} (r : res A) : blind (lift r).
Proof. by intros w1 w2 H. Qed.

Lemma blind_gets {A} (f : world -> A) :
  (forall w1 w2, alike w1 w2 -> f w1 = f w2) -> blind (gets f).
Proof. intros Hf w1 w2 H; split; [simpl; f_equal; by apply Hf | done]. Qed.

Lemma blind_modify f :
  (forall w1 w2, alike w1 w2 -> alike (f w1) (f w2)) -> blind (modify f).
Proof. intros Hf w1 w2 H; split; [done | by apply Hf]. Qed.

Lemma blind_bind {A B} (m : M A) (k : A -> M B) :
  blind m -> (forall a, blind (k a)) -> blind (bind m k).
Proof.
  intros Hm Hk w1 w2 H. unfold bind.
  destruct (Hm w1 w2 H) as [Hfst Hsnd].
  destruct (m w1) as [[a1|e1] w1'], (m w2) as [[a2|e2] w2'];
    simpl in *; try discriminate; inversion Hfst; subst.
  - by apply Hk.
  - by split.
Qed.

Lemma blind_except {A} (clauses : list (exc_class * (py_exc -> M A))) e :
  Forall (fun ch => forall e, blind (ch.2 e)) clauses ->
  blind (except clauses e).
Proof.
  induction 1 as [|[c h] rest Hh _ IH]; simpl.
  - apply blind_raise.
  - destruct (isinstance e c); [apply Hh | apply IH].
Qed.

Lemma blind_try {A} (m : M A) clauses :
  blind m ->
  Forall (fun ch => forall e, blind (ch.2 e)) clauses ->
  blind (try_ m clauses).
Proof.
  intros Hm Hc w1 w2 H. unfold try_.
  destruct (Hm w1 w2 H) as [Hfst Hsnd].
  destruct (m w1) as [[a1|e1] w1'], (m w2) as [[a2|e2] w2'];
    simpl in *; try discriminate; inversion Hfst; subst.
  - by split.
  - by apply blind_except.
Qed.

(** Taking a computation apart along its syntax. *)
Ltac keeps_step :=
  match goal with
  | |- keeps _ (bind _ _) => apply keeps_bind; [try apply _| |intros]
  | |- keeps _ (try_ _ _) => apply keeps_try; [try apply _| |]
  | |- keeps _ (ret _) => apply keeps_ret; apply _
  | |- keeps _ (raise _) => apply keeps_raise; apply _
  | |- keeps _ (lift _) => apply keeps_lift; apply _
  | |- keeps _ (gets _) => apply keeps_gets; apply _
  | |- keeps _ (modify _) => apply keeps_modify; intros
  | |- keeps _ (main.showMessage _) => apply keeps_modify; intros
  | |- keeps _ (main.setText _ ?v) => unfold main.setText; destruct v
  | |- keeps _ (if ?b then _ else _) => destruct b
  | |- keeps _ (match ?x with _ => _ end) => destruct x
  | |- keeps _ (let (_, _) := ?x in _) => destruct x
  | |- Forall _ (_ :: _) => constructor; [intros; simpl|]
  | |- Forall _ [] => constructor
  end.

Ltac blind_step :=
  match goal with
  | |- blind (bind _ _) => apply blind_bind; [|intros]
  | |- blind (try_ _ _) => apply blind_try
  | |- blind (ret _) => apply blind_ret
  | |- blind (raise _) => apply blind_raise
  | |- blind (lift _) => apply blind_lift
  | |- blind (gets _) => apply blind_gets; by intros ?? (?&?&?)
  | |- blind (modify _) =>
      apply blind_modify; by intros ?? (?&?&?); repeat split
  | |- blind (main.showMessage _) =>
      apply blind_modify; by intros ?? (?&?&?); repeat split
  | |- blind (main.setText _ ?v) => unfold main.setText; destruct v
  | |- blind (if ?b then _ else _) => destruct b
  | |- blind (match ?x with _ => _ end) => destruct x
  | |- blind (let (_, _) := ?x in _) => destruct x
  | |- Forall _ (_ :: _) => constructor; [intros; simpl|]
  | |- Forall _ [] => constructor
  end.

(** ** The frame of api.py: a call only issues requests *)

Section ApiFrame.
Variable py_repr : pyval -> string.
Variable net : request -> net_outcome.

Lemma send_keeps r : keeps only_sends (api.send net r).
Proof. intros w. unfold api.send. by destruct (net r). Qed.

Lemma send_blind r : blind (api.send net r).
Proof.
  intros w1 w2 (?&?&?). unfold api.send.
  by destruct (net r); repeat split.
Qed.

Lemma api_post_keeps path json :
  keeps only_sends (api.api_post py_repr net path json).
Proof. unfold api.api_post. repeat first [apply send_keeps | keeps_step]. Qed.

Lemma api_get_keeps path : keeps only_sends (api.api_get py_repr net path).
Proof. unfold api.api_get. repeat first [apply send_keeps | keeps_step]. Qed.

Lemma api_get_blind path : blind (api.api_get py_repr net path).
Proof. unfold api.api_get. repeat first [apply send_blind | blind_step]. Qed.

Lemma login_keeps u p : keeps only_sends (api.login py_repr net u p).
Proof. unfold api.login. repeat first [apply api_post_keeps | keeps_step]. Qed.

Lemma time_keeps : keeps only_sends (api.time py_repr net).
Proof. unfold api.time. repeat first [apply api_get_keeps | keeps_step]. Qed.

Lemma time_blind : blind (api.time py_repr net).
Proof. unfold api.time. repeat first [apply api_get_blind | blind_step]. Qed.

Lemma register_keeps u p : keeps only_sends (api.register py_repr net u p).
Proof. unfold api.register. repeat first [apply api_post_keeps | keeps_step]. Qed.

Lemma submit_charging_request_keeps mode amount size :
  keeps only_sends (api.submit_charging_request py_repr net mode amount size).
Proof.
  unfold api.submit_charging_request.
  repeat first [apply api_post_keeps | keeps_step].
Qed.

Lemma edit_charging_request_keeps mode amount :
  keeps only_sends (api.edit_charging_request py_repr net mode amount).
Proof.
  unfold api.edit_charging_request.
  repeat first [apply api_post_keeps | keeps_step].
Qed.

Lemma end_charging_request_keeps :
  keeps only_sends (api.end_charging_request py_repr net).
Proof.
  unfold api.end_charging_request.
  repeat first [apply api_get_keeps | keeps_step].
Qed.

Lemma preview_queue_keeps : keeps only_sends (api.preview_queue py_repr net).
Proof. apply api_get_keeps. Qed.

Lemma preview_queue_blind : blind (api.preview_queue py_repr net).
Proof. apply api_get_blind. Qed.
End ApiFrame.

(** ** The frame of the slots *)

Lemma completions_app ts ts' :
  completions (ts ++ ts') = (completions ts + completions ts')%nat.
Proof. unfold completions. by rewrite filter_app, length_app. Qed.

Lemma completions_errors ts : Forall is_error_toast ts -> completions ts = 0%nat.
Proof.
  induction 1 as [|t ts [text ->] _ IH]; [done|].
  change (ErrorToast text :: ts) with ([ErrorToast text] ++ ts).
  by rewrite completions_app, IH.
Qed.

Lemma shown_app {A} (m : M A) w ts :
  toasts (snd (m w)) = toasts w ++ ts -> shown m w = ts.
Proof. intros H. unfold shown. by rewrite H, drop_app_length. Qed.

Lemma requested_app {A} (m : M A) w rs :
  sent (snd (m w)) = sent w ++ rs -> requested m w = rs.
Proof. intros H. unfold requested. by rewrite H, drop_app_length. Qed.

Section SlotFrame.
Variable py_repr : pyval -> string.
Variable net : request -> net_outcome.

Local Ltac leaf :=
  match goal with
  | |- only_labels _ _ => by repeat split
  | |- same_last_state _ _ => reflexivity
  | |- steady _ (add_toast (ErrorToast ?s) _) =>
      repeat split; exists [ErrorToast s]; split;
      [done | repeat constructor; by exists s]
  end.

Lemma toast_and_return_keeps {A} :
  Forall (fun ch : exc_class * (py_exc -> M (option A)) =>
            forall e, keeps steady (ch.2 e))
         (main.toast_and_return py_repr).
Proof. unfold main.toast_and_return. repeat first [leaf | keeps_step]. Qed.

Lemma toast_and_return_blind {A} :
  Forall (fun ch : exc_class * (py_exc -> M (option A)) =>
            forall e, blind (ch.2 e))
         (main.toast_and_return py_repr).
Proof. unfold main.toast_and_return. repeat blind_step. Qed.

Lemma preview_fetch_keeps : keeps steady (main.preview_fetch py_repr net).
Proof.
  pose proof (keeps_weaken _ _ _ only_sends_steady
                (preview_queue_keeps py_repr net)) as Hq.
  pose proof (keeps_weaken _ _ _ only_sends_steady
                (time_keeps py_repr net)) as Ht.
  unfold main.preview_fetch.
  repeat first [exact Hq | exact Ht | apply toast_and_return_keeps | keeps_step].
Qed.

Lemma preview_fetch_blind : blind (main.preview_fetch py_repr net).
Proof.
  unfold main.preview_fetch.
  repeat first [apply preview_queue_blind | apply time_blind
               | apply toast_and_return_blind | blind_step].
Qed.

Lemma preview_show_queue_keeps data now_time :
  keeps only_labels (main.preview_show_queue py_repr data now_time).
Proof. unfold main.preview_show_queue. repeat first [leaf | keeps_step]. Qed.

Lemma preview_show_queue_blind data now_time :
  blind (main.preview_show_queue py_repr data now_time).
Proof. unfold main.preview_show_queue. repeat blind_step. Qed.

Lemma observe_blind : blind (observe py_repr net).
Proof.
  unfold observe.
  repeat first [apply preview_fetch_blind | apply preview_show_queue_blind
               | blind_step].
Qed.

Lemma observed_alike w1 w2 :
  alike w1 w2 -> observed py_repr net w1 = observed py_repr net w2.
Proof.
  intros H. unfold observed.
  destruct (observe_blind w1 w2 H) as [Hfst _].
  destruct (observe py_repr net w1) as [[o1|e1] w1'],
           (observe py_repr net w2) as [[o2|e2] w2'];
    simpl in *; congruence.
Qed.
End SlotFrame.

(** Every slot but the timer's leaves [last_state] alone. *)
Lemma slot_keeps_last_state py_repr s :
  (forall net, s <> timer net) -> keeps same_last_state (slot py_repr s).
Proof.
  intros Hs.
  assert (forall A (m : M A), keeps only_sends m -> keeps same_last_state m)
    as Hweak.
  { intros A m. apply keeps_weaken. by intros w w' (?&?&?). }
  assert (forall A,
    Forall (fun ch : exc_class * (py_exc -> M (option A)) =>
              forall e, keeps same_last_state (ch.2 e))
           (main.toast_and_return py_repr)) as Htoast.
  { intros A. eapply Forall_impl; [apply toast_and_return_keeps|].
    intros ch Hch e. eapply keeps_weaken; [|apply Hch].
    apply steady_same_last_state. }
  destruct s as [net| |net|net|net|net|net|f]; simpl.
  - unfold main.on_login_clicked.
    repeat first [apply Htoast | apply Hweak, login_keeps | reflexivity | keeps_step].
  - unfold main.on_logout_clicked. repeat first [reflexivity | keeps_step].
  - unfold main.on_register_clicked.
    repeat first [apply Htoast | apply Hweak, register_keeps | reflexivity | keeps_step].
  - unfold main.on_submit_clicked.
    repeat first [apply Htoast | apply Hweak, submit_charging_request_keeps
                 | reflexivity | keeps_step].
  - unfold main.on_edit_request_clicked.
    repeat first [apply Htoast | apply Hweak, edit_charging_request_keeps
                 | reflexivity | keeps_step].
  - unfold main.on_end_request_clicked.
    repeat first [apply Htoast | apply Hweak, end_charging_request_keeps
                 | reflexivity | keeps_step].
  - by destruct (Hs net).
  - apply keeps_modify; try apply _. by intros w.
Qed.

(** ** One tick *)

Section Tick.
Variable py_repr : pyval -> string.

(** The last part of a tick, once [cur_state] is read. *)
Lemma preview_show_state_run data cur w :
  py_getitem data "cur_state" = Ret cur ->
  let w' := snd (main.preview_show_state data w) in
  fst (main.preview_show_state data w) = Ret tt /\
  TOKEN w' = TOKEN w /\ window w' = window w /\ sent w' = sent w /\
  last_state w' = latch (last_state w) (variant_of cur) /\
  toasts w' =
    toasts w ++
    (if (last_state w =? 1) && bool_decide (variant_of cur = Some NotCharging)
     then [completion] else []).
Proof.
  intros Hcur. unfold main.preview_show_state, bind, lift.
  rewrite Hcur. unfold variant_of.
  destruct (py_eq_str cur "NOTCHARGING").
  { simpl. unfold gets. destruct (last_state w =? 1) eqn:Hlast; simpl;
      rewrite ?Hlast, ?app_nil_r; done. }
  repeat (match goal with
          | |- context [if py_eq_str cur ?s then _ else _] =>
              destruct (py_eq_str cur s)
          end;
          [by rewrite bool_decide_eq_false_2, andb_false_r, app_nil_r|]).
  by rewrite bool_decide_eq_false_2, andb_false_r, app_nil_r.
Qed.

Lemma preview_callback_step net w :
  let w' := snd (main.preview_callback py_repr net w) in
  let o := observed py_repr net w in
  TOKEN w' = TOKEN w /\ window w' = window w /\
  last_state w' = latch (last_state w) o /\
  exists ts,
    toasts w' = toasts w ++ ts /\
    completions ts =
      if (last_state w =? 1) && bool_decide (o = Some NotCharging)
      then 1%nat else 0%nat.
Proof.
  unfold main.preview_callback, observed, observe, bind.
  destruct (preview_fetch_keeps py_repr net w) as (HT & HL & HW & ts & Hts & Herr).
  destruct (main.preview_fetch py_repr net w) as [[[[data now_time]|]|e] w1];
    simpl in *.
  - destruct (preview_show_queue_keeps py_repr data now_time w1)
      as (HT' & HL' & HW' & Hts' & _).
    destruct (main.preview_show_queue py_repr data now_time w1)
      as [[[]|e] w2]; simpl in *.
    + unfold lift. destruct (py_getitem data "cur_state") as [cur|e] eqn:Hcur.
      * destruct (preview_show_state_run data cur w2 Hcur)
          as (_ & HT2 & HW2 & _ & HL2 & Hts2).
        simpl. rewrite HT2, HW2, HL2, Hts2, HT', HW', HL', Hts', HT, HW, HL, Hts.
        repeat split; try done.
        eexists; split; [by rewrite <-app_assoc|].
        rewrite completions_app, (completions_errors _ Herr).
        clear HL2 Hts2. destruct (andb _ _); reflexivity.
      * unfold main.preview_show_state, bind, lift. rewrite Hcur. simpl.
        rewrite HT', HW', HL', Hts', HT, HW, HL, Hts, andb_false_r.
        repeat split; try done.
        exists ts; split; [done | by apply completions_errors].
    + rewrite HT', HW', HL', Hts', HT, HW, HL, Hts, andb_false_r.
      repeat split; try done.
      exists ts; split; [done | by apply completions_errors].
  - rewrite andb_false_r. repeat split; try done.
    exists ts; split; [done | by apply completions_errors].
  - rewrite andb_false_r. repeat split; try done.
    exists ts; split; [done | by apply completions_errors].
Qed.

Lemma notified_step net w :
  notified py_repr net w =
    if (last_state w =? 1) && bool_decide (observed py_repr net w = Some NotCharging)
    then 1%nat else 0%nat.
Proof.
  destruct (preview_callback_step net w) as (_ & _ & _ & ts & Hts & Hc).
  unfold notified. by rewrite (shown_app _ _ _ Hts).
Qed.

Lemma last_state_step net w :
  last_state (deliver py_repr w (timer net)) =
    latch (last_state w) (observed py_repr net w).
Proof. by destruct (preview_callback_step net w) as (_ & _ & ? & _). Qed.

Lemma last_state_other w s :
  (forall net, s <> timer net) ->
  last_state (deliver py_repr w s) = last_state w.
Proof. intros Hs. apply (slot_keeps_last_state py_repr s Hs w). Qed.

Lemma latch_flag last o : flag last -> flag (latch last o).
Proof.
  intros [-> | ->]; destruct o as [[]|]; simpl; unfold flag; auto.
Qed.

Lemma deliver_flag w s : flag (last_state w) -> flag (last_state (deliver py_repr w s)).
Proof.
  intros Hw. destruct s;
    try (rewrite last_state_other; [done | by intros ?]).
  rewrite last_state_step. by apply latch_flag.
Qed.

Lemma run_flag ss w : flag (last_state w) -> flag (last_state (run py_repr w ss)).
Proof.
  revert w. induction ss as [|s ss IH]; intros w Hw; [done|].
  simpl. by apply IH, deliver_flag.
Qed.
End Tick.

(** ** Runs of the event loop *)

Section Runs.
Variable py_repr : pyval -> string.

Lemma run_cons w s ss :
  run py_repr w (s :: ss) = run py_repr (deliver py_repr w s) ss.
Proof. reflexivity. Qed.

Lemma latest_charging_or_not_app h h' :
  latest_charging_or_not (h ++ h') =
    match latest_charging_or_not h' with
    | Some v => Some v
    | None => latest_charging_or_not h
    end.
Proof. unfold latest_charging_or_not. by rewrite filter_app, last_app. Qed.

Lemma latest_charging_or_not_cases h :
  latest_charging_or_not h = None \/
  latest_charging_or_not h = Some Charging \/
  latest_charging_or_not h = Some NotCharging.
Proof.
  unfold latest_charging_or_not.
  destruct (last (filter _ h)) as [v|] eqn:Hlast; [|by left].
  apply last_Some_elem_of, list_elem_of_filter in Hlast as [Hv _].
  destruct v; try discriminate; auto.
Qed.

Lemma latest_charging h :
  latest h = Some Charging -> latest_charging_or_not h = Some Charging.
Proof.
  unfold latest, latest_charging_or_not.
  intros [h' ->]%last_Some.
  rewrite filter_app. apply last_snoc.
Qed.

(** [last_state] is 1 exactly when the latest observation that was
    [Charging] or [NotCharging] was [Charging]. *)
Lemma last_state_run ss w :
  flag (last_state w) ->
  last_state (run py_repr w ss) =
    match latest_charging_or_not (observations py_repr w ss) with
    | Some Charging => 1
    | Some _ => 0
    | None => last_state w
    end.
Proof.
  revert w. induction ss as [|s ss IH]; intros w Hw; [done|].
  rewrite run_cons. cbn [observations].
  rewrite latest_charging_or_not_app, (IH _ (deliver_flag py_repr w s Hw)).
  destruct (latest_charging_or_not (observations _ _ ss)) as [v|]; [done|].
  destruct s;
    try (rewrite last_state_other; [done | by intros ?]).
  rewrite last_state_step.
  destruct (observed py_repr net w) as [[]|]; try done.
  destruct Hw as [-> | ->]; done.
Qed.
End Runs.

(** ** The status poller *)

(** C1, as the code has it.  In a run from process start, a tick shows the
    completion toast exactly when it observes NotCharging and the latest
    earlier observation that was Charging or NotCharging was Charging
    (observations of the waiting and requeue variants in between do not
    count), so in particular when the observation just before was Charging;
    it shows it once; and of two consecutive ticks that observe the same, at
    most one shows it. *)
Theorem completion_toast_on_latched_edge py_repr f texts ss net :
  let w0 := main.start f texts in
  let w := run py_repr w0 ss in
  let w' := deliver py_repr w (timer net) in
  (notified py_repr net w = 1%nat <->
     observed py_repr net w = Some NotCharging /\
     latest_charging_or_not (observations py_repr w0 ss) = Some Charging) /\
  (latest (observations py_repr w0 ss) = Some Charging ->
   observed py_repr net w = Some NotCharging ->
   notified py_repr net w = 1%nat) /\
  (notified py_repr net w <= 1)%nat /\
  (forall net',
     observed py_repr net' w' = observed py_repr net w ->
     (notified py_repr net w + notified py_repr net' w' <= 1)%nat).
Proof.
  intros w0 w w'.
  assert (flag (last_state w0)) as Hw0 by (by left).
  pose proof (last_state_run py_repr ss w0 Hw0) as Hlast.
  fold w in Hlast. change (last_state w0) with 0 in Hlast.
  assert (notified py_repr net w = 1%nat <->
            observed py_repr net w = Some NotCharging /\
            latest_charging_or_not (observations py_repr w0 ss) = Some Charging)
    as Hiff.
  { rewrite notified_step, Hlast.
    destruct (latest_charging_or_not_cases (observations py_repr w0 ss))
      as [-> | [-> | ->]]; simpl;
      (split; [try discriminate | intros [Ho Hl]; try discriminate]).
    - case_bool_decide; done.
    - by rewrite Ho. }
  split; [exact Hiff|]. split; [|split].
  - intros Hprev Hnow. apply Hiff. split; [done | by apply latest_charging].
  - rewrite notified_step. destruct (andb _ _); lia.
  - intros net' Hsame. rewrite !notified_step, Hsame.
    unfold w'. rewrite last_state_step, <-Hsame.
    destruct (observed py_repr net' w') as [[]|]; simpl;
      rewrite ?andb_false_r; try lia.
    destruct (last_state w =? 1) eqn:E; simpl; rewrite ?E; simpl; lia.
Qed.

(** C1, as stated, fails: after Charging and then WaitingStage1, the tick
    that observes NotCharging shows the completion toast although the
    observation just before it was not Charging. *)
Lemma completion_toast_after_waiting :
  let ss := [login_button (replying (login_answer "tok" false));
             timer (reporting Charging); timer (reporting WaitingStage1)] in
  let w := run repr_unused (main.start alice ∅) ss in
  latest (observations repr_unused (main.start alice ∅) ss) = Some WaitingStage1 /\
  observed repr_unused (reporting NotCharging) w = Some NotCharging /\
  notified repr_unused (reporting NotCharging) w = 1%nat /\
  ~ (notified repr_unused (reporting NotCharging) w = 1%nat <->
       latest (observations repr_unused (main.start alice ∅) ss) = Some Charging /\
       observed repr_unused (reporting NotCharging) w = Some NotCharging).
Proof.
  assert (latest (observations repr_unused (main.start alice ∅)
            [login_button (replying (login_answer "tok" false));
             timer (reporting Charging); timer (reporting WaitingStage1)])
          = Some WaitingStage1) as Hlatest by (vm_compute; reflexivity).
  cbv zeta. rewrite Hlatest.
  split; [done|]. split; [vm_compute; reflexivity|].
  split; [vm_compute; reflexivity|].
  intros [H _]. destruct H as [H _]; [vm_compute; reflexivity | discriminate].
Qed.

(** C2, as the code has it.  [last_state] is 0 at process start; a tick of
    a run from process start sets it to 1 when it observes Charging, leaves
    it 0 or sets it back to 0 when it observes NotCharging, and leaves it as
    it is when it observes WaitingStage1, WaitingStage2, ChangeModeRequeue or
    FaultRequeue, or observes nothing. *)
Theorem last_state_after_tick py_repr f texts ss net :
  let w := run py_repr (main.start f texts) ss in
  last_state (main.start f texts) = 0 /\
  last_state (deliver py_repr w (timer net)) =
    match observed py_repr net w with
    | Some Charging => 1
    | Some NotCharging => 0
    | Some WaitingStage1 | Some WaitingStage2
    | Some ChangeModeRequeue | Some FaultRequeue | None => last_state w
    end.
Proof.
  intros w. split; [done|].
  rewrite last_state_step.
  assert (flag (last_state w)) as Hw by (apply run_flag; by left).
  destruct (observed py_repr net w) as [[]|]; try done.
  destruct Hw as [-> | ->]; done.
Qed.

(** C2, as stated, fails: a tick that observes WaitingStage1 leaves
    [last_state] at 0 after a login and at 1 after a tick that observed
    Charging, so what is stored is not the variant observed, under any
    encoding of the variants. *)
Lemma last_state_is_not_the_observed_variant :
  let w := deliver repr_unused logged_in (timer (reporting Charging)) in
  observed repr_unused (reporting WaitingStage1) logged_in = Some WaitingStage1 /\
  observed repr_unused (reporting WaitingStage1) w = Some WaitingStage1 /\
  last_state (deliver repr_unused logged_in (timer (reporting WaitingStage1))) = 0 /\
  last_state (deliver repr_unused w (timer (reporting WaitingStage1))) = 1 /\
  ~ exists stored : ChargingStatus -> Z,
      forall ss net v,
        let w := run repr_unused (main.start alice ∅) ss in
        observed repr_unused net w = Some v ->
        last_state (deliver repr_unused w (timer net)) = stored v.
Proof.
  cbv zeta.
  split; [vm_compute; reflexivity|]. split; [vm_compute; reflexivity|].
  split; [vm_compute; reflexivity|]. split; [vm_compute; reflexivity|].
  intros [stored H].
  pose proof (H [login_button (replying (login_answer "tok" false))]
                (reporting WaitingStage1) WaitingStage1) as H0.
  pose proof (H [login_button (replying (login_answer "tok" false));
                 timer (reporting Charging)]
                (reporting WaitingStage1) WaitingStage1) as H1.
  cbv zeta in H0, H1.
  assert (stored WaitingStage1 = 0) as E0.
  { rewrite <-H0; vm_compute; reflexivity. }
  assert (stored WaitingStage1 = 1) as E1.
  { rewrite <-H1; vm_compute; reflexivity. }
  congruence.
Qed.

(** What [preview_callback] does when one of its two calls raises
    [ApiError]: the toast, and the [return]. *)
Lemma preview_fetch_failed py_repr net w msg :
  py_len_is_zero (TOKEN w) = Ret false ->
  (fst (api.preview_queue py_repr net w) = Raise (api.ApiError_ msg) \/
   (exists data, fst (api.preview_queue py_repr net w) = Ret data) /\
   fst (api.time py_repr net (snd (api.preview_queue py_repr net w)))
     = Raise (api.ApiError_ msg)) ->
  exists w1,
    only_sends w w1 /\
    main.preview_fetch py_repr net w
      = (Ret None, add_toast (ErrorToast (py_str py_repr msg)) w1).
Proof.
  intros Hlen Hfail.
  unfold main.preview_fetch, bind, gets, lift. rewrite Hlen. simpl.
  pose proof (preview_queue_keeps py_repr net w) as Hq.
  unfold try_.
  destruct (api.preview_queue py_repr net w) as [[data|e] w1]; simpl in *.
  - destruct Hfail as [Hfail | [_ Hfail]]; [discriminate|].
    pose proof (time_keeps py_repr net w1) as Ht.
    destruct (api.time py_repr net w1) as [[now_time|e] w2]; simpl in *;
      [discriminate|].
    injection Hfail as ->. simpl.
    exists w2. split; [by etransitivity | reflexivity].
  - destruct Hfail as [Hfail | [[data Hdata] _]]; [|discriminate].
    injection Hfail as ->. simpl.
    exists w1. by split.
Qed.

(** C3.  A tick whose [preview_queue()] or [time()] raises [ApiError] shows
    the error, returns, and leaves [last_state] as it was; the next tick
    observes, notifies and sets [last_state] as it would have done without
    the failed one. *)
Theorem failed_tick_keeps_last_state py_repr net w msg :
  py_len_is_zero (TOKEN w) = Ret false ->
  (fst (api.preview_queue py_repr net w) = Raise (api.ApiError_ msg) \/
   (exists data, fst (api.preview_queue py_repr net w) = Ret data) /\
   fst (api.time py_repr net (snd (api.preview_queue py_repr net w)))
     = Raise (api.ApiError_ msg)) ->
  let w' := deliver py_repr w (timer net) in
  fst (main.preview_callback py_repr net w) = Ret tt /\
  shown (main.preview_callback py_repr net) w = [ErrorToast (py_str py_repr msg)] /\
  last_state w' = last_state w /\
  forall net',
    observed py_repr net' w' = observed py_repr net' w /\
    notified py_repr net' w' = notified py_repr net' w /\
    last_state (deliver py_repr w' (timer net'))
      = last_state (deliver py_repr w (timer net')).
Proof.
  intros Hlen Hfail.
  destruct (preview_fetch_failed py_repr net w msg Hlen Hfail)
    as (w1 & (HT & HL & HW & _ & Hts) & Hfetch).
  assert (main.preview_callback py_repr net w
          = (Ret tt, add_toast (ErrorToast (py_str py_repr msg)) w1)) as Hrun.
  { unfold main.preview_callback, bind. by rewrite Hfetch. }
  simpl. unfold deliver. simpl. rewrite Hrun. simpl.
  split; [done|]. split; [apply shown_app; rewrite Hrun; simpl; by rewrite Hts|].
  split; [done|].
  intros net'.
  assert (alike (add_toast (ErrorToast (py_str py_repr msg)) w1) w) as Halike
    by (by repeat split).
  pose proof (observed_alike py_repr net' _ _ Halike) as Hobs.
  split; [done|].
  rewrite !notified_step, Hobs.
  pose proof (last_state_step py_repr net') as Hstep. unfold deliver in Hstep.
  simpl in Hstep. rewrite !Hstep, Hobs. simpl. by rewrite HL.
Qed.

(** After a tick that observed Charging, a tick that times out leaves
    [last_state] at 1, and the tick after it, observing NotCharging, shows
    the completion toast. *)
Lemma failed_tick_keeps_last_state_witness :
  let net := failing (Exc ConnectTimeout PNone) in
  let w := deliver repr_unused logged_in (timer (reporting Charging)) in
  py_len_is_zero (TOKEN w) = Ret false /\
  fst (api.preview_queue repr_unused net w)
    = Raise (api.ApiError_ (PStr "连接超时")) /\
  last_state w = 1 /\
  last_state (deliver repr_unused w (timer net)) = last_state w /\
  notified repr_unused (reporting NotCharging)
    (deliver repr_unused w (timer net)) = 1%nat.
Proof.
  cbv zeta.
  pose proof (failed_tick_keeps_last_state repr_unused
                (failing (Exc ConnectTimeout PNone))
                (deliver repr_unused logged_in (timer (reporting Charging)))
                (PStr "连接超时")) as H.
  split; [reflexivity|]. split; [vm_compute; reflexivity|].
  split; [vm_compute; reflexivity|].
  destruct H as (_ & _ & Hlast & Hnext);
    [reflexivity | left; vm_compute; reflexivity |].
  split; [exact Hlast|].
  destruct (Hnext (reporting NotCharging)) as (_ & -> & _).
  vm_compute; reflexivity.
Defined.

(** C4.  A tick that starts with the empty token returns at once: it
    issues no request, shows nothing, writes nothing and does not raise. *)
Theorem tick_without_token py_repr net w :
  TOKEN w = PStr "" ->
  main.preview_callback py_repr net w = (Ret tt, w) /\
  requested (main.preview_callback py_repr net) w = [] /\
  shown (main.preview_callback py_repr net) w = [].
Proof.
  intros Htoken.
  assert (main.preview_callback py_repr net w = (Ret tt, w)) as Hrun.
  { unfold main.preview_callback, main.preview_fetch, bind, gets, lift.
    by rewrite Htoken. }
  split; [done|].
  unfold requested, shown. rewrite Hrun. simpl.
  by rewrite !drop_all.
Qed.

(** Before any login a tick does nothing. *)
Lemma tick_without_token_witness :
  let w := main.start alice ∅ in
  TOKEN w = PStr "" /\
  main.preview_callback repr_unused (reporting Charging) w = (Ret tt, w).
Proof.
  split; [reflexivity|].
  apply (tick_without_token repr_unused (reporting Charging) (main.start alice ∅)).
  reflexivity.
Defined.

(** ** The transport wrapper *)

Section Wrapper.
Variable py_repr : pyval -> string.
Variable net : request -> net_outcome.

(** The [except] clauses of [api_post] and [api_get], on any exception. *)
Lemma except_transport e w :
  except
    [ (ConnectTimeout, fun _ => raise (api.ApiError_ (PStr "连接超时")));
      (ConnectionError, fun _ => raise (api.ApiError_ (PStr "连接错误")));
      (ReadTimeout, fun _ => raise (api.ApiError_ (PStr "数据读取超时")));
      (HTTPError, fun _ => raise (api.ApiError_ (PStr "Http错误")));
      (BaseException, fun _ => raise (api.ApiError_ (PStr "网络错误"))) ] e w
  = (@Raise pyval (api.ApiError_ (PStr (kind_message (kind_of (exc_cls e))))), w).
Proof. destruct e as [[] arg]; reflexivity. Qed.

Lemma api_post_run path json w :
  api.api_post py_repr net path json w =
    match py_len_is_zero (TOKEN w) with
    | Raise _ => (Raise (api.ApiError_ (PStr "网络错误")), w)
    | Ret empty =>
        let r := request_with py_repr (TOKEN w) empty POST path (Some json) in
        (handed_on (net r), add_sent r w)
    end.
Proof.
  unfold api.api_post, bind, try_, gets, lift.
  set (handler := except _).
  assert (forall e w, handler e w
            = (Raise (api.ApiError_ (PStr (kind_message (kind_of (exc_cls e))))),
               w)) as Hhandler by (intros; apply except_transport).
  clearbody handler.
  destruct (py_len_is_zero (TOKEN w)) as [empty|e] eqn:Hlen.
  - unfold request_with, handed_on.
    destruct empty; simpl; unfold api.send;
      (destruct (net _) as [e|resp]; [by rewrite Hhandler|]);
      (destruct (py_getitem resp "code") as [code|e]; [|done]);
      (destruct (py_eq_int code (-1)); [|done]);
      by destruct (py_getitem resp "message").
  - rewrite Hhandler.
    destruct (TOKEN w); simpl in Hlen; try discriminate;
      by injection Hlen as <-.
Qed.

Lemma api_get_run path w :
  api.api_get py_repr net path w =
    match py_len_is_zero (TOKEN w) with
    | Raise _ => (Raise (api.ApiError_ (PStr "网络错误")), w)
    | Ret empty =>
        let r := request_with py_repr (TOKEN w) empty GET path None in
        (handed_on (net r), add_sent r w)
    end.
Proof.
  unfold api.api_get, bind, try_, gets, lift.
  set (handler := except _).
  assert (forall e w, handler e w
            = (Raise (api.ApiError_ (PStr (kind_message (kind_of (exc_cls e))))),
               w)) as Hhandler by (intros; apply except_transport).
  clearbody handler.
  destruct (py_len_is_zero (TOKEN w)) as [empty|e] eqn:Hlen.
  - unfold request_with, handed_on.
    destruct empty; simpl; unfold api.send;
      (destruct (net _) as [e|resp]; [by rewrite Hhandler|]);
      (destruct (py_getitem resp "code") as [code|e]; [|done]);
      (destruct (py_eq_int code (-1)); [|done]);
      by destruct (py_getitem resp "message").
  - rewrite Hhandler.
    destruct (TOKEN w); simpl in Hlen; try discriminate;
      by injection Hlen as <-.
Qed.
End Wrapper.

Lemma authorization_request_with py_repr token empty method path json :
  authorization (request_with py_repr token empty method path json) =
    if empty then None else Some ("Bearer " +:+ py_str py_repr token).
Proof.
  unfold authorization, request_with. destruct empty; simpl; [done|].
  apply lookup_singleton_eq.
Qed.

(** The kind of a failure is read off the classes the exception is an
    instance of, in the order of the [except] clauses. *)
Lemma kind_of_isinstance e :
  kind_of (exc_cls e) =
    if isinstance e ConnectTimeout then ConnectionTimedOut
    else if isinstance e ConnectionError then ConnectionFailed
    else if isinstance e ReadTimeout then ReadTimedOut
    else if isinstance e HTTPError then ProtocolError
    else UnknownTransportError.
Proof. destruct e as [[] arg]; reflexivity. Qed.

(** C5.  For a response that is an envelope with a [code]: when [code]
    equals -1 and there is a [message], the call raises [ApiError] with that
    very message; when [code] is anything else, the call returns the [data]
    field, or [None] when there is none; and no call both returns and
    raises. *)
Theorem envelope_decoding py_repr path json w empty d code :
  py_len_is_zero (TOKEN w) = Ret empty ->
  d !! "code" = Some code ->
  let post := fst (api.api_post py_repr (replying (PDict d)) path json w) in
  let get := fst (api.api_get py_repr (replying (PDict d)) path w) in
  (py_eq_int code (-1) = true ->
   forall message, d !! "message" = Some message ->
     post = Raise (api.ApiError_ message) /\ get = Raise (api.ApiError_ message)) /\
  (py_eq_int code (-1) = false ->
     post = Ret (default PNone (d !! "data")) /\
     get = Ret (default PNone (d !! "data"))) /\
  (forall data e, ~ (post = Ret data /\ post = Raise e)) /\
  (forall data e, ~ (get = Ret data /\ get = Raise e)).
Proof.
  intros Hlen Hcode post get. subst post get.
  rewrite api_post_run, api_get_run, Hlen. simpl. rewrite Hcode.
  split; [|split; [|split]].
  - intros -> message ->. done.
  - by intros ->.
  - intros data e [-> ?]. discriminate.
  - intros data e [-> ?]. discriminate.
Qed.

(** A refused registration raises with the text of the service; a void
    operation returns [None]. *)
Lemma envelope_decoding_witness :
  fst (api.api_post repr_unused
         (replying (envelope (-1) "用户名已存在" PNone))
         "/user/register" (PDict ∅) (main.start alice ∅))
    = Raise (api.ApiError_ (PStr "用户名已存在")) /\
  fst (api.api_get repr_unused
         (replying (envelope 0 "" PNone))
         "/user/end_charging_request" logged_in)
    = Ret PNone.
Proof.
  split.
  - destruct (envelope_decoding repr_unused "/user/register" (PDict ∅)
                (main.start alice ∅) true
                {[ "code" := PInt (-1); "message" := PStr "用户名已存在";
                   "data" := PNone ]}
                (PInt (-1)))
      as (Herror & _); [reflexivity | reflexivity |].
    destruct (Herror eq_refl (PStr "用户名已存在")) as [Hpost _];
      [reflexivity | exact Hpost].
  - destruct (envelope_decoding repr_unused "/user/end_charging_request" PNone
                logged_in false
                {[ "code" := PInt 0; "message" := PStr ""; "data" := PNone ]}
                (PInt 0))
      as (_ & Hdata & _); [reflexivity | reflexivity |].
    destruct (Hdata eq_refl) as [_ Hget]. exact Hget.
Defined.

(** C6.  Whatever exception the request raises, the caller gets an
    [ApiError] whose message is one of the five fixed texts, never the
    exception itself; with a token that has a length the text is the one of
    the kind of the failure, which for a connection timeout is "连接超时". *)
Theorem transport_failure_is_ApiError py_repr e path json w :
  let post := fst (api.api_post py_repr (failing e) path json w) in
  let get := fst (api.api_get py_repr (failing e) path w) in
  (exists k, post = Raise (api.ApiError_ (PStr (kind_message k)))) /\
  (exists k, get = Raise (api.ApiError_ (PStr (kind_message k)))) /\
  (forall empty, py_len_is_zero (TOKEN w) = Ret empty ->
     post = Raise (api.ApiError_ (PStr (kind_message (kind_of (exc_cls e))))) /\
     get = Raise (api.ApiError_ (PStr (kind_message (kind_of (exc_cls e)))))) /\
  (isinstance e ConnectTimeout = true ->
     kind_message (kind_of (exc_cls e)) = "连接超时").
Proof.
  intros post get. subst post get.
  rewrite api_post_run, api_get_run.
  destruct (py_len_is_zero (TOKEN w)) as [empty|e'] eqn:Hlen; simpl.
  - repeat split; eauto.
    rewrite kind_of_isinstance. by intros ->.
  - repeat split; try by exists UnknownTransportError.
    + discriminate.
    + discriminate.
    + rewrite kind_of_isinstance. by intros ->.
Qed.

(** A connection timeout while polling. *)
Lemma transport_failure_is_ApiError_witness :
  fst (api.api_get repr_unused (failing (Exc ConnectTimeout PNone))
         "/user/preview_queue" logged_in)
    = Raise (api.ApiError_ (PStr "连接超时")).
Proof.
  destruct (transport_failure_is_ApiError repr_unused (Exc ConnectTimeout PNone)
              "/user/preview_queue" PNone logged_in) as (_ & _ & H & _).
  destruct (H false) as [_ Hget]; [reflexivity | exact Hget].
Defined.

(** C9.  [api_post] and [api_get] issue one request each; it carries the
    header [Authorization: Bearer <token>] when the token is not empty, and
    no header at all when the token is the empty string. *)
Theorem authorization_iff_token py_repr net path json w token :
  TOKEN w = PStr token ->
  exists r_post r_get,
    requested (api.api_post py_repr net path json) w = [r_post] /\
    requested (api.api_get py_repr net path) w = [r_get] /\
    (authorization r_post = Some ("Bearer " +:+ token) <-> token <> "") /\
    (authorization r_get = Some ("Bearer " +:+ token) <-> token <> "") /\
    (is_Some (authorization r_post) <-> token <> "") /\
    (is_Some (authorization r_get) <-> token <> "") /\
    (token = "" -> req_headers r_post = None /\ req_headers r_get = None).
Proof.
  intros Htoken.
  exists (request_with py_repr (TOKEN w) (String.eqb token "") POST path (Some json)),
         (request_with py_repr (TOKEN w) (String.eqb token "") GET path None).
  split; [apply requested_app; by rewrite api_post_run, Htoken|].
  split; [apply requested_app; by rewrite api_get_run, Htoken|].
  rewrite !authorization_request_with, Htoken. simpl.
  destruct (String.eqb_spec token "") as [-> | Hne].
  - repeat split; try done; try (by intros [? ?]); by intros ?.
  - repeat split; try done; by intros ?.
Qed.

(** After the login, polling sends the token. *)
Lemma authorization_iff_token_witness :
  TOKEN logged_in = PStr "tok" /\
  exists r,
    requested (api.api_get repr_unused (reporting Charging) "/user/preview_queue")
      logged_in = [r] /\
    authorization r = Some "Bearer tok".
Proof.
  split; [reflexivity|].
  destruct (authorization_iff_token repr_unused (reporting Charging)
              "/user/preview_queue" PNone logged_in "tok")
    as (r_post & r_get & _ & Hget & _ & Hauth & _); [reflexivity|].
  exists r_get. split; [exact Hget|].
  apply Hauth. discriminate.
Defined.

(** C10.  A body that is not a [dict] with a [code] makes [api_post] and
    [api_get] raise [TypeError], or [KeyError] when it is a [dict]: the
    exception leaves the call as it is, and it is not an [ApiError]. *)
Theorem body_without_code_raises_raw py_repr body path json w empty :
  py_len_is_zero (TOKEN w) = Ret empty ->
  (forall d, body = PDict d -> d !! "code" = None) ->
  let e := match body with
           | PDict _ => Exc KeyError (PStr "code")
           | _ => Exc TypeError PNone
           end in
  fst (api.api_post py_repr (replying body) path json w) = Raise e /\
  fst (api.api_get py_repr (replying body) path w) = Raise e /\
  isinstance e ApiError = false.
Proof.
  intros Hlen Hbody.
  rewrite api_post_run, api_get_run, Hlen. simpl.
  destruct body as [| | | | | |d]; simpl; try done.
  by rewrite (Hbody d eq_refl).
Qed.

(** A list as body, and an object without [code]. *)
Lemma body_without_code_raises_raw_witness :
  fst (api.api_get repr_unused (replying (PList [])) "/user/preview_queue" logged_in)
    = Raise (Exc TypeError PNone) /\
  fst (api.api_post repr_unused (replying (PDict {[ "data" := PNone ]}))
         "/login" (PDict ∅) (main.start alice ∅))
    = Raise (Exc KeyError (PStr "code")).
Proof.
  split.
  - destruct (body_without_code_raises_raw repr_unused (PList [])
                "/user/preview_queue" PNone logged_in false)
      as (_ & Hget & _); [reflexivity | discriminate | exact Hget].
  - destruct (body_without_code_raises_raw repr_unused
                (PDict {[ "data" := PNone ]}) "/login" (PDict ∅)
                (main.start alice ∅) true)
      as (Hpost & _); [reflexivity | by intros d [= <-] | exact Hpost].
Defined.

(** ** The login and the charging requests *)

(** What [on_login_clicked] does once [api.login] has returned. *)
Lemma on_login_clicked_run py_repr net w token is_admin :
  fst (api.login py_repr net (username_input (window w))
         (password_input (window w)) w) = Ret (token, is_admin) ->
  exists w1,
    only_sends w w1 /\
    main.on_login_clicked py_repr net w =
      (Ret tt,
       if py_truthy is_admin then add_toast (Notice "请使用用户账号") w1
       else add_toast (Notice "登陆成功")
              (set_label "user_state_label" "已登陆"
                 (set_label "user_role_label" "USER" (set_TOKEN token w1)))).
Proof.
  intros Hlogin.
  pose proof (login_keeps py_repr net (username_input (window w))
                (password_input (window w)) w) as Hkeeps.
  unfold main.on_login_clicked, bind, try_, gets.
  destruct (api.login py_repr net _ _ w) as [[r|e] w1]; simpl in *;
    [|discriminate].
  injection Hlogin as ->.
  exists w1. split; [done|].
  by destruct (py_truthy is_admin).
Qed.

(** C7.  When [api.login] returns a token and a flag: with a true flag the
    handler shows "请使用用户账号" and leaves the token and the labels as they
    were, so an unauthenticated session stays unauthenticated; with a false
    flag it stores the token, sets the role and state labels and shows
    "登陆成功", and a later [preview_queue()] sends the stored token, when it
    is a non-empty string, in its [Authorization] header. *)
Theorem login_rejects_admin py_repr net w token is_admin :
  fst (api.login py_repr net (username_input (window w))
         (password_input (window w)) w) = Ret (token, is_admin) ->
  let w' := deliver py_repr w (login_button net) in
  (py_truthy is_admin = true ->
     TOKEN w' = TOKEN w /\ labels w' = labels w /\
     shown (main.on_login_clicked py_repr net) w = [Notice "请使用用户账号"] /\
     (TOKEN w = PStr "" -> TOKEN w' = PStr "")) /\
  (py_truthy is_admin = false ->
     TOKEN w' = token /\
     labels w' !! "user_state_label" = Some "已登陆" /\
     labels w' !! "user_role_label" = Some "USER" /\
     shown (main.on_login_clicked py_repr net) w = [Notice "登陆成功"] /\
     forall t net', token = PStr t -> t <> "" ->
       exists r,
         requested (api.preview_queue py_repr net') w' = [r] /\
         authorization r = Some ("Bearer " +:+ t)).
Proof.
  intros Hlogin.
  destruct (on_login_clicked_run py_repr net w token is_admin Hlogin)
    as (w1 & (HT & _ & _ & Hlabels & Htoasts) & Hrun).
  unfold deliver; simpl. rewrite Hrun. split.
  - intros Hflag. rewrite Hflag in *. simpl. repeat split; try done.
    + apply shown_app. rewrite Hrun. simpl. by rewrite Htoasts.
    + by rewrite HT.
  - intros Hflag. rewrite Hflag in *. simpl. repeat split; try done.
    + apply lookup_insert_eq.
    + rewrite lookup_insert_ne by done. apply lookup_insert_eq.
    + apply shown_app. rewrite Hrun. simpl. by rewrite Htoasts.
    + intros t net' -> Ht.
      exists (request_with py_repr (PStr t) false GET "/user/preview_queue" None).
      split.
      * apply requested_app. unfold api.preview_queue.
        rewrite api_get_run. simpl.
        by destruct (String.eqb_spec t "") as [-> | _].
      * by rewrite authorization_request_with.
Qed.

(** An administrator is turned away and a user is let in. *)
Lemma login_rejects_admin_witness :
  let w := main.start alice ∅ in
  let w_admin := deliver repr_unused w (login_button (replying (login_answer "root" true))) in
  let w_user := deliver repr_unused w (login_button (replying (login_answer "tok" false))) in
  fst (api.login repr_unused (replying (login_answer "root" true)) "alice" "secret" w)
    = Ret (PStr "root", PBool true) /\
  TOKEN w_admin = PStr "" /\
  TOKEN w_user = PStr "tok".
Proof.
  cbv zeta. split; [vm_compute; reflexivity|]. split.
  - destruct (login_rejects_admin repr_unused
                (replying (login_answer "root" true)) (main.start alice ∅)
                (PStr "root") (PBool true)) as [Hadmin _];
      [vm_compute; reflexivity|].
    destruct (Hadmin eq_refl) as (_ & _ & _ & Hstays).
    apply Hstays. reflexivity.
  - destruct (login_rejects_admin repr_unused
                (replying (login_answer "tok" false)) (main.start alice ∅)
                (PStr "tok") (PBool false)) as [_ Huser];
      [vm_compute; reflexivity|].
    destruct (Huser eq_refl) as (Htoken & _). exact Htoken.
Defined.

Section Requests.
Variable py_repr : pyval -> string.
Variable net : request -> net_outcome.

(** After a call of [api_post], the handler of a slot issues nothing more. *)
Lemma requested_after_post {A} (m : M (option A)) (k : option A -> M unit) w r :
  sent (snd (m w)) = sent w ++ [r] ->
  keeps (fun w w' => sent w' = sent w) (fun w => k None w) ->
  (forall a, keeps (fun w w' => sent w' = sent w) (k (Some a))) ->
  requested
    (let* x := try_ m (main.toast_and_return py_repr) in k x) w = [r].
Proof.
  intros Hsent HNone HSome. apply requested_app.
  unfold bind, try_. destruct (m w) as [[[a|]|e] w1]; simpl in *.
  - by rewrite HSome.
  - by rewrite HNone.
  - destruct (isinstance e ApiError); simpl; [|done].
    by rewrite HNone.
Qed.

Lemma on_submit_clicked_request w empty :
  py_len_is_zero (TOKEN w) = Ret empty ->
  let mode := if String.eqb (charge_mode_box (window w)) "快充" then "F" else "T" in
  requested (main.on_submit_clicked py_repr net) w =
    [request_with py_repr (TOKEN w) empty POST "/user/submit_charging_request"
       (Some (PDict {[ "charge_mode" := PStr mode;
                       "require_amount" := PStr (require_amount_input (window w));
                       "battery_size" := PStr (battery_capacity_input (window w)) ]}))].
Proof.
  intros Hlen mode. unfold main.on_submit_clicked.
  apply requested_after_post.
  - unfold api.submit_charging_request, bind, gets.
    rewrite api_post_run, Hlen. simpl.
    by destruct (handed_on _).
  - by intros w0.
  - by intros a w0.
Qed.

Lemma on_edit_request_clicked_request w empty :
  py_len_is_zero (TOKEN w) = Ret empty ->
  let mode := if String.eqb (charge_mode_box (window w)) "快充" then "F" else "T" in
  requested (main.on_edit_request_clicked py_repr net) w =
    [request_with py_repr (TOKEN w) empty POST "/user/edit_charging_request"
       (Some (PDict {[ "charge_mode" := PStr mode;
                       "require_amount" := PStr (require_amount_input (window w)) ]}))].
Proof.
  intros Hlen mode. unfold main.on_edit_request_clicked.
  apply requested_after_post.
  - unfold api.edit_charging_request, bind, gets.
    rewrite api_post_run, Hlen. simpl.
    by destruct (handed_on _).
  - by intros w0.
  - by intros a w0.
Qed.
End Requests.

(** C8.  Submitting and editing a charging request each issue one request,
    whose [charge_mode] is "F" when the mode box reads "快充" and "T" when it
    reads anything else. *)
Theorem charge_mode_is_encoded py_repr net w token :
  TOKEN w = PStr token ->
  exists r_submit r_edit,
    requested (main.on_submit_clicked py_repr net) w = [r_submit] /\
    requested (main.on_edit_request_clicked py_repr net) w = [r_edit] /\
    req_url r_submit = api.BASE_URL +:+ "/user/submit_charging_request" /\
    req_url r_edit = api.BASE_URL +:+ "/user/edit_charging_request" /\
    (charge_mode_box (window w) = "快充" ->
       json_field r_submit "charge_mode" = Some (PStr "F") /\
       json_field r_edit "charge_mode" = Some (PStr "F")) /\
    (charge_mode_box (window w) <> "快充" ->
       json_field r_submit "charge_mode" = Some (PStr "T") /\
       json_field r_edit "charge_mode" = Some (PStr "T")).
Proof.
  intros Htoken.
  assert (py_len_is_zero (TOKEN w) = Ret (String.eqb token "")) as Hlen
    by (by rewrite Htoken).
  eexists _, _.
  split; [by apply on_submit_clicked_request|].
  split; [by apply on_edit_request_clicked_request|].
  split; [done|]. split; [done|].
  unfold json_field, request_with; simpl.
  rewrite !lookup_insert_eq.
  destruct (String.eqb_spec (charge_mode_box (window w)) "快充"); by split.
Qed.

(** Alice asks for fast charging. *)
Lemma charge_mode_is_encoded_witness :
  TOKEN logged_in = PStr "tok" /\
  charge_mode_box (window logged_in) = "快充" /\
  exists r,
    requested (main.on_submit_clicked repr_unused (replying (envelope 0 "" PNone)))
      logged_in = [r] /\
    json_field r "charge_mode" = Some (PStr "F").
Proof.
  split; [reflexivity|]. split; [reflexivity|].
  destruct (charge_mode_is_encoded repr_unused (replying (envelope 0 "" PNone))
              logged_in "tok")
    as (r_submit & r_edit & Hsubmit & _ & _ & _ & Hfast & _); [reflexivity|].
  exists r_submit. split; [exact Hsubmit|].
  destruct Hfast as [Hmode _]; [reflexivity | exact Hmode].
Defined.

(** ** The scenarios of the interface, run *)

(** Charging and then NotCharging: one toast, and none on the ticks after. *)
Example charging_then_finished :
  toasts (run repr_unused logged_in
            [timer (reporting Charging); timer (reporting NotCharging);
             timer (reporting NotCharging); timer (reporting NotCharging)])
    = [Notice "登陆成功"; completion].
Proof. vm_compute. reflexivity. Qed.

(** A tick shows the queue, the request number, the time and the state. *)
Example tick_labels :
  let w := deliver repr_unused logged_in
             (timer (answering (Snapshot WaitingStage2 3 (Some "T7")) "12:00" 0)) in
  labels w !! "queue_position_label" = Some "前有3人" /\
  labels w !! "request_id_label" = Some "T7" /\
  labels w !! "time_label" = Some "12:00" /\
  labels w !! "status_label" = Some "在充电区等待".
Proof. vm_compute. repeat split. Qed.

(** A queue length of -1 blanks the label. *)
Example tick_without_queue :
  labels (deliver repr_unused logged_in
            (timer (answering (Snapshot NotCharging (-1) None) "12:00" 0)))
    !! "queue_position_label" = Some "".
Proof. vm_compute. reflexivity. Qed.

(** After the logout the ticks stop calling the service. *)
Example logout_stops_polling :
  let w := run repr_unused logged_in [logout_button] in
  requested (main.preview_callback repr_unused (reporting Charging)) w = [].
Proof. vm_compute. reflexivity. Qed.

(** A slow charge is sent as "T". *)
Example slow_charge_is_T :
  let w := deliver repr_unused logged_in
             (user_edit (Form "alice" "secret" "慢充" "20" "60")) in
  map (fun r => json_field r "charge_mode")
    (requested
       (main.on_edit_request_clicked repr_unused (replying (envelope 0 "" PNone)))
       w)
    = [Some (PStr "T")].
Proof. vm_compute. reflexivity. Qed.

(** ** More of api.py *)

(** X1.  A call of [api_post] or [api_get] issues at most one request,
    whatever the outcome: one when the token has a length, none when
    [len(TOKEN)] raises. *)
Theorem call_is_single_shot py_repr net path json w :
  let post := requested (api.api_post py_repr net path json) w in
  let get := requested (api.api_get py_repr net path) w in
  (length post <= 1)%nat /\ (length get <= 1)%nat /\
  (forall empty, py_len_is_zero (TOKEN w) = Ret empty ->
     length post = 1%nat /\ length get = 1%nat) /\
  (forall e, py_len_is_zero (TOKEN w) = Raise e -> post = [] /\ get = []).
Proof.
  intros post get.
  assert (match py_len_is_zero (TOKEN w) with
          | Ret _ => length post = 1%nat /\ length get = 1%nat
          | Raise _ => post = [] /\ get = []
          end) as H.
  { subst post get. unfold requested.
    rewrite api_post_run, api_get_run.
    destruct (py_len_is_zero (TOKEN w)); simpl;
      by rewrite ?drop_app_length, ?drop_all. }
  destruct (py_len_is_zero (TOKEN w)) as [empty|e]; destruct H as [Hp Hg].
  - rewrite Hp, Hg. split; [lia|]. split; [lia|]. split; [done|].
    intros ?; discriminate.
  - rewrite Hp, Hg. simpl. split; [lia|]. split; [lia|]. split; [|done].
    intros ?; discriminate.
Qed.

Section Operations.
Variable py_repr : pyval -> string.
Variable net : request -> net_outcome.

Lemma query_bill_keeps date : keeps only_sends (api.query_bill py_repr net date).
Proof. apply api_post_keeps. Qed.

(** X2.  No operation of api.py writes anything: [TOKEN], [last_state], the
    inputs, the labels and the toasts are after the call what they were
    before it, whether it returns or raises. *)
Theorem operations_only_send :
  (forall path json, keeps only_sends (api.api_post py_repr net path json)) /\
  (forall path, keeps only_sends (api.api_get py_repr net path)) /\
  (forall u p, keeps only_sends (api.login py_repr net u p)) /\
  keeps only_sends (api.time py_repr net) /\
  (forall u p, keeps only_sends (api.register py_repr net u p)) /\
  (forall m a b, keeps only_sends (api.submit_charging_request py_repr net m a b)) /\
  (forall m a, keeps only_sends (api.edit_charging_request py_repr net m a)) /\
  keeps only_sends (api.end_charging_request py_repr net) /\
  (forall d, keeps only_sends (api.query_bill py_repr net d)) /\
  (forall b, keeps only_sends (api.query_order_detail py_repr net b)) /\
  keeps only_sends (api.preview_queue py_repr net) /\
  keeps only_sends (api.query_all_piles_stat py_repr net) /\
  keeps only_sends (api.admin_status_report py_repr net) /\
  keeps only_sends (api.admin_query_queue py_repr net) /\
  (forall p s, keeps only_sends (api.update_pile_stat py_repr net p s)).
Proof.
  repeat split; intros;
    first [ apply api_post_keeps | apply api_get_keeps | apply login_keeps
          | apply time_keeps | apply register_keeps
          | apply submit_charging_request_keeps
          | apply edit_charging_request_keeps
          | apply end_charging_request_keeps ].
Qed.
End Operations.

(** ** What a slot can raise *)

Lemma isinstance_ApiError_cls e :
  isinstance e ApiError = true <-> exc_cls e = ApiError.
Proof. destruct e as [[] arg]; simpl; split; (done || discriminate). Qed.

Lemma lookup_error_not_ApiError e :
  lookup_error e -> isinstance e ApiError = false.
Proof.
  destruct e as [c arg]. unfold lookup_error. simpl. by intros [-> | ->].
Qed.

Lemma py_getitem_raises v k e : py_getitem v k = Raise e -> lookup_error e.
Proof.
  destruct v; simpl; try (intros [= <-]; by right).
  destruct (d !! k); [discriminate|]. intros [= <-]. by left.
Qed.

Lemma py_len_is_zero_raises v e : py_len_is_zero v = Raise e -> lookup_error e.
Proof. destruct v; simpl; try discriminate; intros [= <-]; by right. Qed.

Lemma handed_on_raises o e :
  handed_on o = Raise e -> api_or_lookup_error e.
Proof.
  destruct o as [e'|resp]; simpl; [intros [= <-]; by left|].
  destruct (py_getitem resp "code") as [code|e1] eqn:Hcode.
  - destruct (py_eq_int code (-1)).
    + destruct (py_getitem resp "message") as [m|e2] eqn:Hm.
      * intros [= <-]. by left.
      * intros [= <-]. right. by eapply py_getitem_raises.
    + destruct resp; try discriminate.
  - intros [= <-]. right. by eapply py_getitem_raises.
Qed.

Section Raises.
Context {P : py_exc -> Prop}.

Lemma raises_only_ret {A} (a : A) : raises_only P (ret a).
Proof. intros w e. discriminate. Qed.

Lemma raises_only_gets {A} (f : world -> A) : raises_only P (gets f).
Proof. intros w e. discriminate. Qed.

Lemma raises_only_modify f : raises_only P (modify f).
Proof. intros w e. discriminate. Qed.

Lemma raises_only_raise {A} e : P e -> raises_only P (@raise A e).
Proof. by intros He w e' [= <-]. Qed.

Lemma raises_only_lift {A} (r : res A) :
  (forall e, r = Raise e -> P e) -> raises_only P (lift r).
Proof. intros Hr w e. apply Hr. Qed.

Lemma raises_only_bind {A B} (m : M A) (k : A -> M B) :
  raises_only P m -> (forall a, raises_only P (k a)) -> raises_only P (bind m k).
Proof.
  intros Hm Hk w e. unfold bind. specialize (Hm w).
  destruct (m w) as [[a|e'] w']; simpl in *; [apply Hk|].
  intros [= <-]. by apply Hm.
Qed.
End Raises.

Lemma raises_only_weaken {A} (P Q : py_exc -> Prop) (m : M A) :
  (forall e, P e -> Q e) -> raises_only P m -> raises_only Q m.
Proof. intros HPQ Hm w e He. by apply HPQ, (Hm w). Qed.

(** The handler of the slots lets nothing through but what is not an
    [ApiError]. *)
Lemma raises_only_try_toast {A} py_repr (m : M (option A)) :
  raises_only api_or_lookup_error m ->
  raises_only lookup_error (try_ m (main.toast_and_return py_repr)).
Proof.
  intros Hm w e. unfold try_. specialize (Hm w).
  destruct (m w) as [[a|e'] w']; simpl in *; [discriminate|].
  destruct (isinstance e' ApiError) eqn:Hi; simpl; [discriminate|].
  intros [= <-]. destruct (Hm e' eq_refl) as [Hcls | Hlookup]; [|done].
  apply isinstance_ApiError_cls in Hcls. congruence.
Qed.

Ltac raises_step :=
  match goal with
  | |- raises_only _ (bind _ _) => apply raises_only_bind; [|intros]
  | |- raises_only _ (ret _) => apply raises_only_ret
  | |- raises_only _ (gets _) => apply raises_only_gets
  | |- raises_only _ (modify _) => apply raises_only_modify
  | |- raises_only _ (main.showMessage _) => apply raises_only_modify
  | |- raises_only _ (main.setText _ ?v) => unfold main.setText; destruct v
  | |- raises_only _ (raise (Exc TypeError _)) =>
      apply raises_only_raise; first [by right | by right; right]
  | |- raises_only _ (lift (py_getitem _ _)) =>
      apply raises_only_lift; intros ? ?%py_getitem_raises;
      first [done | by right]
  | |- raises_only _ (lift (py_len_is_zero _)) =>
      apply raises_only_lift; intros ? ?%py_len_is_zero_raises;
      first [done | by right]
  | |- raises_only _ (try_ _ (main.toast_and_return _)) =>
      apply raises_only_try_toast
  | |- raises_only _ (if ?b then _ else _) => destruct b
  | |- raises_only _ (match ?x with _ => _ end) => destruct x
  | |- raises_only _ (let (_, _) := ?x in _) => destruct x
  end.

Section SlotRaises.
Variable py_repr : pyval -> string.
Variable net : request -> net_outcome.

Lemma api_post_raises path json :
  raises_only api_or_lookup_error (api.api_post py_repr net path json).
Proof.
  intros w e. rewrite api_post_run.
  destruct (py_len_is_zero (TOKEN w)); simpl.
  - apply handed_on_raises.
  - intros [= <-]. by left.
Qed.

Lemma api_get_raises path :
  raises_only api_or_lookup_error (api.api_get py_repr net path).
Proof.
  intros w e. rewrite api_get_run.
  destruct (py_len_is_zero (TOKEN w)); simpl.
  - apply handed_on_raises.
  - intros [= <-]. by left.
Qed.

Lemma login_raises u p : raises_only api_or_lookup_error (api.login py_repr net u p).
Proof. unfold api.login. repeat first [apply api_post_raises | raises_step]. Qed.

Lemma time_raises : raises_only api_or_lookup_error (api.time py_repr net).
Proof. unfold api.time. repeat first [apply api_get_raises | raises_step]. Qed.

Lemma register_raises u p :
  raises_only api_or_lookup_error (api.register py_repr net u p).
Proof. unfold api.register. repeat first [apply api_post_raises | raises_step]. Qed.

Lemma submit_charging_request_raises m a b :
  raises_only api_or_lookup_error (api.submit_charging_request py_repr net m a b).
Proof.
  unfold api.submit_charging_request.
  repeat first [apply api_post_raises | raises_step].
Qed.

Lemma edit_charging_request_raises m a :
  raises_only api_or_lookup_error (api.edit_charging_request py_repr net m a).
Proof.
  unfold api.edit_charging_request.
  repeat first [apply api_post_raises | raises_step].
Qed.

Lemma end_charging_request_raises :
  raises_only api_or_lookup_error (api.end_charging_request py_repr net).
Proof.
  unfold api.end_charging_request.
  repeat first [apply api_get_raises | raises_step].
Qed.

(** X3.  Every operation of api.py raises [ApiError], or the [KeyError] or
    [TypeError] of a lookup in a response that is not what was expected, and
    nothing else: no exception of [requests] reaches the caller. *)
Theorem operations_raise_ApiError_or_lookup_errors :
  (forall path json,
     raises_only api_or_lookup_error (api.api_post py_repr net path json)) /\
  (forall path, raises_only api_or_lookup_error (api.api_get py_repr net path)) /\
  (forall u p, raises_only api_or_lookup_error (api.login py_repr net u p)) /\
  raises_only api_or_lookup_error (api.time py_repr net) /\
  (forall u p, raises_only api_or_lookup_error (api.register py_repr net u p)) /\
  (forall m a b,
     raises_only api_or_lookup_error
       (api.submit_charging_request py_repr net m a b)) /\
  (forall m a,
     raises_only api_or_lookup_error (api.edit_charging_request py_repr net m a)) /\
  raises_only api_or_lookup_error (api.end_charging_request py_repr net) /\
  (forall d, raises_only api_or_lookup_error (api.query_bill py_repr net d)) /\
  (forall b, raises_only api_or_lookup_error (api.query_order_detail py_repr net b)) /\
  raises_only api_or_lookup_error (api.preview_queue py_repr net) /\
  raises_only api_or_lookup_error (api.query_all_piles_stat py_repr net) /\
  raises_only api_or_lookup_error (api.admin_status_report py_repr net) /\
  raises_only api_or_lookup_error (api.admin_query_queue py_repr net) /\
  (forall p s, raises_only api_or_lookup_error (api.update_pile_stat py_repr net p s)).
Proof.
  repeat split; intros;
    first [ apply api_post_raises | apply api_get_raises | apply login_raises
          | apply time_raises | apply register_raises
          | apply submit_charging_request_raises
          | apply edit_charging_request_raises
          | apply end_charging_request_raises ].
Qed.

Lemma on_checklist_clicked_fetch_raises :
  raises_only lookup_error (main.on_checklist_clicked_fetch py_repr net).
Proof.
  unfold main.on_checklist_clicked_fetch, api.query_bill.
  repeat first [apply api_post_raises | apply time_raises | raises_step].
Qed.
End SlotRaises.

Lemma slot_raises py_repr s : raises_only lookup_error (slot py_repr s).
Proof.
  destruct s as [net| |net|net|net|net|net|f]; simpl;
    unfold main.on_login_clicked, main.on_logout_clicked,
      main.on_register_clicked, main.on_submit_clicked,
      main.on_edit_request_clicked, main.on_end_request_clicked,
      main.preview_callback, main.preview_fetch, main.preview_show_queue,
      main.preview_show_state, api.preview_queue;
    repeat first [ apply api_get_raises | apply login_raises | apply time_raises
                 | apply register_raises | apply submit_charging_request_raises
                 | apply edit_charging_request_raises
                 | apply end_charging_request_raises | raises_step ].
Qed.


(** X4.  Whatever the service answers, a slot never lets an [ApiError]
    through: the only exceptions that leave a slot are the [KeyError] and
    the [TypeError] of a lookup in an unexpected response or state. *)
Theorem only_lookup_errors_leave_a_slot py_repr s w e :
  fst (slot py_repr s w) = Raise e ->
  lookup_error e /\ isinstance e ApiError = false.
Proof.
  intros He. pose proof (slot_raises py_repr s w e He) as Hl.
  split; [done | by apply lookup_error_not_ApiError].
Qed.

(** A tick to which the service answers with a list. *)
Lemma only_lookup_errors_leave_a_slot_witness :
  fst (slot repr_unused (timer (replying (PList []))) logged_in)
    = Raise (Exc TypeError PNone) /\
  lookup_error (Exc TypeError PNone).
Proof.
  split; [vm_compute; reflexivity|].
  apply (only_lookup_errors_leave_a_slot repr_unused
           (timer (replying (PList []))) logged_in (Exc TypeError PNone)).
  vm_compute; reflexivity.
Defined.

(** ** The token on every request *)

Global Instance sent_with_preorder py_repr token : PreOrder (sent_with py_repr token).
Proof.
  split.
  - intros w. exists []. by rewrite app_nil_r.
  - intros w1 w2 w3 (rs & Hrs & Hall) (rs' & Hrs' & Hall').
    exists (rs ++ rs'). split; [|by apply Forall_app].
    by rewrite Hrs', Hrs, app_assoc.
Qed.

Global Instance sends_with_preorder py_repr token : PreOrder (sends_with py_repr token).
Proof.
  split.
  - intros w Ht. split; [done | reflexivity].
  - intros w1 w2 w3 H12 H23 Ht.
    destruct (H12 Ht) as [Ht2 Hs12]. destruct (H23 Ht2) as [Ht3 Hs23].
    split; [done | by etransitivity].
Qed.

Global Instance same_sent_preorder : PreOrder same_sent.
Proof.
  split; [by intros w|]. intros w1 w2 w3; unfold same_sent; congruence.
Qed.

Global Instance same_TOKEN_preorder : PreOrder same_TOKEN.
Proof.
  split; [by intros w|]. intros w1 w2 w3; unfold same_TOKEN; congruence.
Qed.

Global Instance only_reports_preorder : PreOrder only_reports.
Proof.
  split; [by intros w|].
  intros w1 w2 w3 (?&?&?&?) (?&?&?&?); repeat split; congruence.
Qed.

Global Instance same_status_preorder : PreOrder same_status.
Proof.
  split; [by intros w|]. intros w1 w2 w3; unfold same_status; congruence.
Qed.

Lemma sends_with_quiet py_repr token w w' :
  TOKEN w' = TOKEN w -> sent w' = sent w -> sends_with py_repr token w w'.
Proof.
  intros HT Hs Ht. split; [congruence|].
  exists []. by rewrite app_nil_r.
Qed.

Section Carries.
Variable py_repr : pyval -> string.
Variable token : pyval.

Lemma authorization_header_of empty method path json :
  py_len_is_zero token = Ret empty ->
  authorization (request_with py_repr token empty method path json)
    = header_of py_repr token.
Proof.
  intros Hlen. rewrite authorization_request_with. unfold header_of.
  rewrite Hlen. by destruct empty.
Qed.

Lemma api_post_sends_with net path json :
  keeps (sends_with py_repr token) (api.api_post py_repr net path json).
Proof.
  intros w Ht. rewrite api_post_run.
  destruct (py_len_is_zero (TOKEN w)) as [empty|e] eqn:Hlen; simpl.
  - split; [done|]. eexists [_]. split; [done|].
    repeat constructor. rewrite Ht in *. by apply authorization_header_of.
  - split; [done | reflexivity].
Qed.

Lemma api_get_sends_with net path :
  keeps (sends_with py_repr token) (api.api_get py_repr net path).
Proof.
  intros w Ht. rewrite api_get_run.
  destruct (py_len_is_zero (TOKEN w)) as [empty|e] eqn:Hlen; simpl.
  - split; [done|]. eexists [_]. split; [done|].
    repeat constructor. rewrite Ht in *. by apply authorization_header_of.
  - split; [done | reflexivity].
Qed.

Local Ltac quiet := by apply sends_with_quiet.

Local Ltac sends :=
  repeat first [ apply api_post_sends_with | apply api_get_sends_with
               | quiet | keeps_step ].

Lemma login_try_sends_with net :
  keeps (sends_with py_repr token)
    (try_
       (let* inputs := gets window in
        let* r := api.login py_repr net (username_input inputs)
                    (password_input inputs) in
        ret (Some r))
       (main.toast_and_return py_repr)).
Proof. unfold main.toast_and_return, api.login. sends. Qed.

Lemma slot_sends_with s :
  is_session_button s = false -> keeps (sends_with py_repr token) (slot py_repr s).
Proof.
  destruct s as [net| |net|net|net|net|net|f]; simpl; try discriminate; intros _;
    unfold main.on_register_clicked, main.on_submit_clicked,
      main.on_edit_request_clicked, main.on_end_request_clicked,
      main.preview_callback, main.preview_fetch, main.preview_show_queue,
      main.preview_show_state, main.toast_and_return,
      api.register, api.submit_charging_request, api.edit_charging_request,
      api.end_charging_request, api.preview_queue, api.time;
    sends.
Qed.
End Carries.

Lemma requested_sent_with {A} py_repr (m : M A) w :
  sent_with py_repr (TOKEN w) w (snd (m w)) ->
  Forall (fun r => authorization r = header_of py_repr (TOKEN w)) (requested m w).
Proof. intros (rs & Hrs & Hall). by rewrite (requested_app _ _ _ Hrs). Qed.

(** X5.  Every request a slot issues carries the token the slot started
    with: [Authorization: Bearer <TOKEN>] when the token is not empty, no
    such header when it is.  The request of a login is sent with the token
    of before the login. *)
Theorem requests_carry_the_token py_repr s w :
  Forall (fun r => authorization r = header_of py_repr (TOKEN w))
         (requested (slot py_repr s) w).
Proof.
  apply requested_sent_with.
  destruct (is_session_button s) eqn:Hs.
  - destruct s as [net| | | | | | |]; try discriminate; simpl.
    + unfold main.on_login_clicked, bind.
      destruct (login_try_sends_with py_repr (TOKEN w) net w eq_refl)
        as [_ Hsent].
      destruct (try_ _ _ w) as [[[[token is_admin]|]|e] w1]; simpl in *;
        try done.
      destruct (py_truthy is_admin); simpl; done.
    + exists []. by rewrite app_nil_r.
  - by apply (slot_sends_with py_repr (TOKEN w) s Hs w).
Qed.

(** ** The session *)

Section Session.
Variable py_repr : pyval -> string.

Lemma deliver_keeps_TOKEN w s :
  is_session_button s = false -> TOKEN (deliver py_repr w s) = TOKEN w.
Proof.
  intros Hs.
  by destruct (slot_sends_with py_repr (TOKEN w) s Hs w eq_refl) as [H _].
Qed.

Lemma preview_callback_unauthenticated net w :
  TOKEN w = PStr "" -> main.preview_callback py_repr net w = (Ret tt, w).
Proof.
  intros Ht. unfold main.preview_callback, main.preview_fetch, bind, gets, lift.
  by rewrite Ht.
Qed.

Lemma request_slot_only_reports s :
  is_session_button s = false -> is_timer s = false ->
  (forall f, s <> user_edit f) ->
  keeps only_reports (slot py_repr s).
Proof.
  assert (forall A (m : M A), keeps only_sends m -> keeps only_reports m)
    as Hweak.
  { intros A m. apply keeps_weaken. by intros w w' (?&?&?&?&?). }
  destruct s as [net| |net|net|net|net|net|f]; simpl; try discriminate;
    intros _ _ Hedit;
    [ unfold main.on_register_clicked | unfold main.on_submit_clicked
    | unfold main.on_edit_request_clicked | unfold main.on_end_request_clicked
    | by destruct (Hedit f) ];
    unfold main.toast_and_return;
    repeat first [ apply Hweak, register_keeps
                 | apply Hweak, submit_charging_request_keeps
                 | apply Hweak, edit_charging_request_keeps
                 | apply Hweak, end_charging_request_keeps
                 | done | keeps_step ].
Qed.

Lemma deliver_unauthenticated w s :
  TOKEN w = PStr "" -> is_session_button s = false ->
  labels (deliver py_repr w s) = labels w /\
  last_state (deliver py_repr w s) = last_state w.
Proof.
  intros Ht Hs.
  assert (is_timer s = false -> (forall f, s <> user_edit f) ->
          labels (deliver py_repr w s) = labels w /\
          last_state (deliver py_repr w s) = last_state w) as Hreports.
  { intros Htimer Hedit.
    by destruct (request_slot_only_reports s Hs Htimer Hedit w)
      as (_ & ? & _ & ?). }
  destruct s as [net| |net|net|net|net|net|f]; try discriminate;
    try (by apply Hreports).
  - unfold deliver. cbn [slot]. by rewrite preview_callback_unauthenticated.
  - done.
Qed.

Lemma ticks_unauthenticated nets w :
  TOKEN w = PStr "" -> run py_repr w (map timer nets) = w.
Proof.
  intros Ht. induction nets as [|net nets IH]; [done|].
  cbn [map]. rewrite run_cons.
  replace (deliver py_repr w (timer net)) with w; [done|].
  unfold deliver. cbn [slot]. by rewrite preview_callback_unauthenticated.
Qed.
End Session.

(** X6.  Only the login and the logout write [TOKEN]: a run of any other
    signals leaves it as it was. *)
Theorem token_is_written_by_login_and_logout_only py_repr ss w :
  Forall (fun s => is_session_button s = false) ss ->
  TOKEN (run py_repr w ss) = TOKEN w.
Proof.
  revert w. induction ss as [|s ss IH]; intros w Hss; [done|].
  inversion_clear Hss as [|? ? Hs Hss'].
  rewrite run_cons, IH by done. by apply deliver_keeps_TOKEN.
Qed.

(** Ticks, a request and an edit after the login. *)
Lemma token_is_written_by_login_and_logout_only_witness :
  TOKEN (run repr_unused logged_in
           [timer (reporting Charging);
            submit_request_button (replying (envelope (-1) "busy" PNone));
            user_edit (Form "bob" "x" "慢充" "1" "2");
            timer (failing (Exc ReadTimeout PNone))])
    = PStr "tok".
Proof.
  rewrite (token_is_written_by_login_and_logout_only repr_unused
             [timer (reporting Charging);
              submit_request_button (replying (envelope (-1) "busy" PNone));
              user_edit (Form "bob" "x" "慢充" "1" "2");
              timer (failing (Exc ReadTimeout PNone))] logged_in).
  - reflexivity.
  - repeat constructor.
Defined.

(** X7.  While nobody has logged in, nothing is polled and nothing is
    displayed: whatever signals other than the login and the logout arrive,
    the token stays empty and the labels and [last_state] stay as they were;
    and the ticks among them do nothing at all. *)
Theorem nothing_is_polled_before_login py_repr ss w :
  TOKEN w = PStr "" ->
  Forall (fun s => is_session_button s = false) ss ->
  TOKEN (run py_repr w ss) = PStr "" /\
  labels (run py_repr w ss) = labels w /\
  last_state (run py_repr w ss) = last_state w /\
  (Forall (fun s => is_timer s = true) ss -> run py_repr w ss = w).
Proof.
  revert w. induction ss as [|s ss IH]; intros w Ht Hss; [done|].
  inversion_clear Hss as [|? ? Hs Hss'].
  rewrite run_cons.
  pose proof (deliver_keeps_TOKEN py_repr w s Hs) as Ht'. rewrite Ht in Ht'.
  destruct (deliver_unauthenticated py_repr w s Ht Hs) as [Hl Hls].
  destruct (IH _ Ht' Hss') as (IHt & IHl & IHls & IHrun).
  repeat split; try congruence.
  intros Hticks. inversion_clear Hticks as [|? ? Htick Hticks'].
  destruct s; try discriminate.
  rewrite IHrun by done. unfold deliver. cbn [slot].
  by rewrite preview_callback_unauthenticated.
Qed.

Lemma nothing_is_polled_before_login_witness :
  let ss := [timer (reporting Charging);
             register_button (replying (envelope 0 "" PNone));
             timer (reporting NotCharging)] in
  TOKEN (main.start alice ∅) = PStr "" /\
  labels (run repr_unused (main.start alice ∅) ss) = ∅ /\
  last_state (run repr_unused (main.start alice ∅) ss) = 0.
Proof.
  cbv zeta. split; [reflexivity|].
  destruct (nothing_is_polled_before_login repr_unused
              [timer (reporting Charging);
               register_button (replying (envelope 0 "" PNone));
               timer (reporting NotCharging)]
              (main.start alice ∅)) as (_ & Hl & Hls & _);
    [reflexivity | repeat constructor |].
  split; [exact Hl | exact Hls].
Defined.

(** X8.  A logout always succeeds without a request: it empties the token,
    sets the two session labels and shows "成功注销"; it leaves [last_state]
    alone; and every tick after it does nothing, whatever the service would
    answer. *)
Theorem logout_ends_the_polling py_repr w :
  let w' := deliver py_repr w logout_button in
  fst (main.on_logout_clicked w) = Ret tt /\
  TOKEN w' = PStr "" /\
  labels w' !! "user_role_label" = Some "无" /\
  labels w' !! "user_state_label" = Some "未登陆" /\
  shown main.on_logout_clicked w = [Notice "成功注销"] /\
  requested main.on_logout_clicked w = [] /\
  last_state w' = last_state w /\
  forall nets, run py_repr w' (map timer nets) = w'.
Proof.
  simpl. repeat split.
  - by rewrite lookup_insert_ne, lookup_insert_eq.
  - apply lookup_insert_eq.
  - by apply shown_app.
  - apply requested_app. simpl. by rewrite app_nil_r.
  - intros nets. by apply ticks_unauthenticated.
Qed.

(** X9.  No signal but the timer's writes [last_state]: a completion that
    is due when the user logs out, or when somebody else logs in, is still
    reported by the first tick that observes NotCharging. *)
Theorem pending_completion_survives py_repr ss w net :
  Forall (fun s => is_timer s = false) ss ->
  let w' := run py_repr w ss in
  last_state w' = last_state w /\
  notified py_repr net w' =
    if (last_state w =? 1) && bool_decide (observed py_repr net w' = Some NotCharging)
    then 1%nat else 0%nat.
Proof.
  intros Hss w'.
  assert (last_state w' = last_state w) as Hlast.
  { subst w'. revert w. induction Hss as [|s ss Hs _ IH]; intros w; [done|].
    rewrite run_cons, IH. apply last_state_other.
    intros net' ->. discriminate. }
  split; [done|]. by rewrite notified_step, Hlast.
Qed.

(** Alice logs out while charging, Bob logs in, and Bob is told that the
    charging has finished. *)
Lemma pending_completion_survives_witness :
  let w := deliver repr_unused logged_in (timer (reporting Charging)) in
  let ss := [logout_button; user_edit (Form "bob" "pw" "慢充" "10" "40");
             login_button (replying (login_answer "tok2" false))] in
  TOKEN (run repr_unused w ss) = PStr "tok2" /\
  notified repr_unused (reporting NotCharging) (run repr_unused w ss) = 1%nat.
Proof.
  cbv zeta. split; [vm_compute; reflexivity|].
  destruct (pending_completion_survives repr_unused
              [logout_button; user_edit (Form "bob" "pw" "慢充" "10" "40");
               login_button (replying (login_answer "tok2" false))]
              (deliver repr_unused logged_in (timer (reporting Charging)))
              (reporting NotCharging)) as [_ ->];
    [repeat constructor | vm_compute; reflexivity].
Defined.

(** ** What a tick displays *)

Section Status.
Variable py_repr : pyval -> string.

Local Ltac leaf :=
  match goal with
  | |- same_status _ (set_label _ _ _) =>
      unfold same_status; simpl; by rewrite lookup_insert_ne
  | |- same_status _ _ => reflexivity
  end.

Lemma api_keeps_status {A} (m : M A) : keeps only_sends m -> keeps same_status m.
Proof.
  apply keeps_weaken. intros w w' (_&_&_&Hl&_). unfold same_status. by rewrite Hl.
Qed.

Lemma preview_fetch_keeps_status net :
  keeps same_status (main.preview_fetch py_repr net).
Proof.
  unfold main.preview_fetch, main.toast_and_return.
  repeat first [ apply api_keeps_status, preview_queue_keeps
               | apply api_keeps_status, time_keeps | leaf | keeps_step ].
Qed.

Lemma preview_show_queue_keeps_status data now_time :
  keeps same_status (main.preview_show_queue py_repr data now_time).
Proof. unfold main.preview_show_queue. repeat first [leaf | keeps_step]. Qed.

Lemma preview_show_state_status data cur w :
  py_getitem data "cur_state" = Ret cur ->
  labels (snd (main.preview_show_state data w)) !! "status_label" =
    match variant_of cur with
    | Some v => Some (status_text v)
    | None => labels w !! "status_label"
    end.
Proof.
  intros Hcur. unfold main.preview_show_state, bind, lift.
  rewrite Hcur. unfold variant_of.
  destruct (py_eq_str cur "NOTCHARGING").
  { simpl. unfold gets. destruct (last_state w =? 1); simpl;
      apply lookup_insert_eq. }
  repeat (match goal with
          | |- context [if py_eq_str cur ?s then _ else _] =>
              destruct (py_eq_str cur s)
          end; [simpl; apply lookup_insert_eq|]).
  done.
Qed.

Lemma tick_status net w :
  labels (deliver py_repr w (timer net)) !! "status_label" =
    match observed py_repr net w with
    | Some v => Some (status_text v)
    | None => labels w !! "status_label"
    end.
Proof.
  unfold deliver. cbn [slot].
  unfold main.preview_callback, observed, observe, bind.
  pose proof (preview_fetch_keeps_status net w) as Hf.
  destruct (main.preview_fetch py_repr net w) as [[[[data now_time]|]|e] w1];
    simpl in *; try done.
  pose proof (preview_show_queue_keeps_status data now_time w1) as Hq.
  destruct (main.preview_show_queue py_repr data now_time w1)
    as [[[]|e] w2]; simpl in *; [|congruence].
  unfold lift. destruct (py_getitem data "cur_state") as [cur|e] eqn:Hcur.
  - simpl. rewrite (preview_show_state_status data cur w2 Hcur).
    destruct (variant_of cur); [done | congruence].
  - unfold main.preview_show_state, bind, lift. rewrite Hcur. simpl. congruence.
Qed.

Lemma slot_keeps_status s :
  is_timer s = false -> keeps same_status (slot py_repr s).
Proof.
  destruct s as [net| |net|net|net|net|net|f]; simpl; try discriminate; intros _;
    unfold main.on_login_clicked, main.on_logout_clicked,
      main.on_register_clicked, main.on_submit_clicked,
      main.on_edit_request_clicked, main.on_end_request_clicked,
      main.toast_and_return;
    repeat first [ apply api_keeps_status, login_keeps
                 | apply api_keeps_status, register_keeps
                 | apply api_keeps_status, submit_charging_request_keeps
                 | apply api_keeps_status, edit_charging_request_keeps
                 | apply api_keeps_status, end_charging_request_keeps
                 | leaf | keeps_step ].
Qed.
End Status.

(** X10.  The status label always shows the latest observation: after any
    run it holds the text of the variant the latest observing tick saw, and
    what it held before the run when no tick observed anything.  Failed
    ticks, logins and logouts never touch it. *)
Theorem status_label_shows_latest_observation py_repr ss w :
  labels (run py_repr w ss) !! "status_label" =
    match latest (observations py_repr w ss) with
    | Some v => Some (status_text v)
    | None => labels w !! "status_label"
    end.
Proof.
  revert w. induction ss as [|s ss IH]; intros w; [done|].
  rewrite run_cons, IH. cbn [observations]. unfold latest.
  rewrite last_app.
  destruct (last (observations py_repr (deliver py_repr w s) ss)); [done|].
  destruct (is_timer s) eqn:Hs.
  - destruct s; try discriminate. rewrite tick_status.
    by destruct (observed py_repr net w).
  - pose proof (slot_keeps_status py_repr s Hs w) as Hkeep.
    unfold same_status in Hkeep. fold (deliver py_repr w s) in Hkeep.
    rewrite Hkeep. by destruct s.
Qed.

Lemma handed_on_envelope code message data :
  code <> -1 -> handed_on (NetJson (envelope code message data)) = Ret data.
Proof.
  intros Hcode. unfold handed_on, envelope, py_getitem, py_get.
  rewrite lookup_insert_eq. simpl.
  destruct (Z.eqb_spec code (-1)) as [|_]; [done|].
  by rewrite !lookup_insert_ne, lookup_singleton_eq.
Qed.

Lemma snapshot_data_fields s :
  py_getitem (snapshot_data s) "cur_state" = Ret (PStr (cur_state_name (cur_state s))) /\
  py_getitem (snapshot_data s) "queue_len" = Ret (PInt (queue_len s)) /\
  py_getitem (snapshot_data s) "charge_id" = Ret (from_option PStr PNone (charge_id s)).
Proof.
  unfold snapshot_data, py_getitem. split; [|split].
  - by rewrite lookup_insert_eq.
  - by rewrite lookup_insert_ne, lookup_insert_eq.
  - by rewrite !lookup_insert_ne, lookup_singleton_eq.
Qed.

Lemma variant_of_name v : variant_of (PStr (cur_state_name v)) = Some v.
Proof. by destruct v. Qed.

Section Display.
Variable py_repr : pyval -> string.

Local Ltac leaf := match goal with |- same_sent _ _ => reflexivity end.

Lemma preview_show_queue_keeps_sent data now_time :
  keeps same_sent (main.preview_show_queue py_repr data now_time).
Proof. unfold main.preview_show_queue. repeat first [leaf | keeps_step]. Qed.

Lemma preview_show_state_keeps_sent data :
  keeps same_sent (main.preview_show_state data).
Proof. unfold main.preview_show_state. repeat first [leaf | keeps_step]. Qed.

Lemma preview_callback_sent net w :
  sent (snd (main.preview_callback py_repr net w))
    = sent (snd (main.preview_fetch py_repr net w)).
Proof.
  unfold main.preview_callback, bind.
  destruct (main.preview_fetch py_repr net w) as [[[[data now_time]|]|e] w1];
    simpl; try done.
  pose proof (preview_show_queue_keeps_sent data now_time w1) as Hq.
  destruct (main.preview_show_queue py_repr data now_time w1) as [[[]|e] w2];
    simpl in *; [|done].
  by rewrite (preview_show_state_keeps_sent data w2).
Qed.

(** The two calls of a tick, run. *)
Lemma preview_fetch_run net w :
  py_len_is_zero (TOKEN w) = Ret false ->
  let r1 := request_with py_repr (TOKEN w) false GET "/user/preview_queue" None in
  let r2 := request_with py_repr (TOKEN w) false GET "/time" None in
  main.preview_fetch py_repr net w =
    match handed_on (net r1) with
    | Raise e =>
        if isinstance e ApiError
        then (Ret None,
              add_toast (ErrorToast (py_str py_repr (exc_arg e))) (add_sent r1 w))
        else (Raise e, add_sent r1 w)
    | Ret data =>
        let w2 := add_sent r2 (add_sent r1 w) in
        let now :=
          match handed_on (net r2) with
          | Raise e => Raise e
          | Ret t =>
              match py_getitem t "datetime" with
              | Raise e => Raise e
              | Ret datetime =>
                  match py_getitem t "timestamp" with
                  | Raise e => Raise e
                  | Ret timestamp => Ret (datetime, timestamp)
                  end
              end
          end in
        match now with
        | Ret now_time => (Ret (Some (data, now_time)), w2)
        | Raise e =>
            if isinstance e ApiError
            then (Ret None, add_toast (ErrorToast (py_str py_repr (exc_arg e))) w2)
            else (Raise e, w2)
        end
    end.
Proof.
  intros Hlen. cbv zeta.
  unfold main.preview_fetch, bind, gets, lift, try_. rewrite Hlen.
  unfold api.preview_queue. rewrite api_get_run, Hlen. cbv zeta.
  destruct (handed_on (net _)) as [data|e]; simpl.
  - unfold api.time, bind. rewrite api_get_run. simpl TOKEN. rewrite Hlen.
    cbv zeta.
    destruct (handed_on (net _)) as [t|e]; simpl.
    + unfold lift.
      destruct (py_getitem t "datetime") as [datetime|e]; simpl.
      * destruct (py_getitem t "timestamp") as [timestamp|e]; simpl; [done|].
        by destruct (isinstance e ApiError).
      * by destruct (isinstance e ApiError).
    + by destruct (isinstance e ApiError).
  - by destruct (isinstance e ApiError).
Qed.
End Display.

(** X11.  A tick with a token asks for the queue first and for the time
    second, and for the time only when the queue was returned: it issues two
    requests, or the first alone, never more and never in another order. *)
Theorem tick_requests_in_order py_repr net w :
  py_len_is_zero (TOKEN w) = Ret false ->
  let r1 := request_with py_repr (TOKEN w) false GET "/user/preview_queue" None in
  let r2 := request_with py_repr (TOKEN w) false GET "/time" None in
  requested (main.preview_callback py_repr net) w =
    match handed_on (net r1) with
    | Ret _ => [r1; r2]
    | Raise _ => [r1]
    end.
Proof.
  intros Hlen. cbv zeta. apply requested_app.
  rewrite preview_callback_sent, (preview_fetch_run py_repr net w Hlen).
  cbv zeta.
  destruct (handed_on (net _)) as [data|e]; simpl.
  - destruct (handed_on (net _)) as [t|e]; simpl.
    + destruct (py_getitem t "datetime"); simpl.
      * destruct (py_getitem t "timestamp"); simpl;
          [|destruct (isinstance _ _)]; simpl; by rewrite <-app_assoc.
      * destruct (isinstance _ _); simpl; by rewrite <-app_assoc.
    + destruct (isinstance _ _); simpl; by rewrite <-app_assoc.
  - by destruct (isinstance _ _).
Qed.

(** The service refuses the queue: the time is not asked for. *)
Lemma tick_requests_in_order_witness :
  py_len_is_zero (TOKEN logged_in) = Ret false /\
  length (requested
            (main.preview_callback repr_unused
               (replying (envelope (-1) "no such user" PNone)))
            logged_in) = 1%nat /\
  length (requested (main.preview_callback repr_unused (reporting Charging))
            logged_in) = 2%nat.
Proof.
  split; [reflexivity|]. split.
  - rewrite (tick_requests_in_order repr_unused
               (replying (envelope (-1) "no such user" PNone)) logged_in);
      [reflexivity | reflexivity].
  - rewrite (tick_requests_in_order repr_unused (reporting Charging) logged_in);
      [reflexivity | reflexivity].
Defined.

Global Instance same_label_preorder name : PreOrder (same_label name).
Proof.
  split; [by intros w|]. intros w1 w2 w3; unfold same_label; congruence.
Qed.

Lemma preview_show_state_keeps_label data name :
  name <> "status_label" -> keeps (same_label name) (main.preview_show_state data).
Proof.
  intros Hname. unfold main.preview_show_state.
  repeat first
    [ match goal with
      | |- same_label _ _ (set_label _ _ _) =>
          unfold same_label; simpl; by rewrite lookup_insert_ne
      | |- same_label _ _ _ => reflexivity
      end
    | keeps_step ].
Qed.

Lemma time_data_fields datetime timestamp :
  py_getitem (time_data datetime timestamp) "datetime" = Ret (PStr datetime) /\
  py_getitem (time_data datetime timestamp) "timestamp" = Ret (PInt timestamp).
Proof.
  unfold time_data, py_getitem. split.
  - by rewrite lookup_insert_eq.
  - by rewrite lookup_insert_ne, lookup_singleton_eq.
Qed.

Lemma answering_with_fetch py_repr data datetime timestamp w :
  py_len_is_zero (TOKEN w) = Ret false ->
  exists w2,
    only_sends w w2 /\
    length (sent w2) = (length (sent w) + 2)%nat /\
    main.preview_fetch py_repr (answering_with data datetime timestamp) w
      = (Ret (Some (data, (PStr datetime, PInt timestamp))), w2).
Proof.
  intros Hlen.
  rewrite (preview_fetch_run py_repr _ w Hlen). cbv zeta.
  change (answering_with data datetime timestamp
            (request_with py_repr (TOKEN w) false GET "/user/preview_queue" None))
    with (NetJson (envelope 0 "" data)).
  change (answering_with data datetime timestamp
            (request_with py_repr (TOKEN w) false GET "/time" None))
    with (NetJson (envelope 0 "" (time_data datetime timestamp))).
  rewrite !handed_on_envelope by done.
  destruct (time_data_fields datetime timestamp) as [-> ->].
  eexists. split; [|split; [|reflexivity]]; [by repeat split|].
  simpl. rewrite !length_app. simpl. lia.
Qed.

Lemma answering_is_answering_with s datetime timestamp r :
  req_url r = api.BASE_URL +:+ "/user/preview_queue" \/
  req_url r = api.BASE_URL +:+ "/time" ->
  answering s datetime timestamp r
    = answering_with (snapshot_data s) datetime timestamp r.
Proof.
  unfold answering, answering_with. by intros [-> | ->].
Qed.

Lemma qt_text_plain s : main.starts_with_mark s = false -> main.qt_text s = s.
Proof.
  unfold main.starts_with_mark, main.qt_text.
  by destruct (main.strip_prefix main.byte_order_mark s).
Qed.

(** What a tick leaves in the labels when the two calls returned [data] and
    the time, and [data] has the three fields. *)
Lemma tick_display_run py_repr net w w2 data datetime timestamp q id cur :
  main.preview_fetch py_repr net w
    = (Ret (Some (data, (PStr datetime, timestamp))), w2) ->
  labels w2 = labels w ->
  py_getitem data "queue_len" = Ret (PInt q) ->
  py_getitem data "charge_id" = Ret (from_option PStr PNone id) ->
  py_getitem data "cur_state" = Ret cur ->
  let w' := deliver py_repr w (timer net) in
  fst (main.preview_callback py_repr net w) = Ret tt /\
  observed py_repr net w = variant_of cur /\
  labels w' !! "queue_position_label" =
    Some (if q =? -1 then "" else "前有" +:+ pretty q +:+ "人") /\
  labels w' !! "request_id_label" =
    match id with
    | Some text =>
        if String.eqb text "" then labels w !! "request_id_label"
        else Some (main.qt_text text)
    | None => labels w !! "request_id_label"
    end /\
  labels w' !! "time_label" = Some (main.qt_text datetime).
Proof.
  intros Hfetch Hlabels Hq Hid Hcur.
  unfold deliver. cbn [slot].
  unfold main.preview_callback, observed, observe, bind. rewrite Hfetch.
  unfold main.preview_show_queue, bind, lift. rewrite Hq, Hid, Hcur.
  cbn [py_eq_int negb main.setText fst].
  set (queue_text := if q =? -1 then "" else "前有" +:+ pretty q +:+ "人").
  assert ((if negb (q =? -1)
           then modify (set_label "queue_position_label"
                          (main.qt_text
                             ("前有" +:+ py_str py_repr (PInt q) +:+ "人")))
           else modify (set_label "queue_position_label" (main.qt_text ""))) w2
          = (Ret tt, set_label "queue_position_label" queue_text w2)) as ->.
  { subst queue_text. by destruct (q =? -1). }
  set (w3 := set_label "queue_position_label" queue_text w2).
  assert (exists w4,
    (if py_truthy (from_option PStr PNone id)
     then main.setText "request_id_label" (from_option PStr PNone id)
     else ret tt) w3 = (Ret tt, w4) /\
    labels w4 !! "queue_position_label" = Some queue_text /\
    labels w4 !! "request_id_label" =
      match id with
      | Some text =>
          if String.eqb text "" then labels w !! "request_id_label"
          else Some (main.qt_text text)
      | None => labels w !! "request_id_label"
      end) as (w4 & -> & Hw4q & Hw4id).
  { destruct id as [text|]; simpl.
    - destruct (String.eqb text ""); simpl.
      + exists w3. subst w3. simpl. rewrite <-Hlabels.
        by rewrite lookup_insert_eq, lookup_insert_ne.
      + eexists. split; [reflexivity|]. subst w3. simpl.
        by rewrite lookup_insert_eq, lookup_insert_ne, lookup_insert_eq.
    - exists w3. subst w3. simpl. rewrite <-Hlabels.
      by rewrite lookup_insert_eq, lookup_insert_ne. }
  cbn [modify fst snd].
  set (w5 := set_label "time_label" (main.qt_text datetime) w4).
  destruct (preview_show_state_run data cur w5 Hcur) as (Hret & _).
  pose proof (preview_show_state_keeps_label data "queue_position_label"
                ltac:(done) w5) as Hkq.
  pose proof (preview_show_state_keeps_label data "request_id_label"
                ltac:(done) w5) as Hkid.
  pose proof (preview_show_state_keeps_label data "time_label"
                ltac:(done) w5) as Hkt.
  unfold same_label in *.
  split; [done|]. split; [done|].
  rewrite Hkq, Hkid, Hkt. subst w5. simpl.
  rewrite lookup_insert_eq, !lookup_insert_ne by done.
  by rewrite Hw4q, Hw4id.
Qed.

(** X12.  A tick that is answered with a snapshot and the time, neither the
    request number nor the time starting with a byte-order mark (U+FEFF or
    U+FFFE), returns normally, observes the variant of the snapshot and
    displays it: the queue label reads "前有<n>人", or is blank when the
    queue length is -1; the time label reads the time of the service; the
    status label reads the text of the variant; and the request label reads
    the request number, or keeps what it read before when the snapshot has
    none. *)
Theorem tick_displays_the_snapshot py_repr s datetime timestamp w :
  py_len_is_zero (TOKEN w) = Ret false ->
  main.starts_with_mark datetime = false ->
  (forall text, charge_id s = Some text -> main.starts_with_mark text = false) ->
  let net := answering s datetime timestamp in
  let w' := deliver py_repr w (timer net) in
  fst (main.preview_callback py_repr net w) = Ret tt /\
  observed py_repr net w = Some (cur_state s) /\
  labels w' !! "queue_position_label" =
    Some (if queue_len s =? -1 then ""
          else "前有" +:+ pretty (queue_len s) +:+ "人") /\
  labels w' !! "request_id_label" =
    match charge_id s with
    | Some text =>
        if String.eqb text "" then labels w !! "request_id_label" else Some text
    | None => labels w !! "request_id_label"
    end /\
  labels w' !! "time_label" = Some datetime /\
  labels w' !! "status_label" = Some (status_text (cur_state s)).
Proof.
  intros Hlen Hdatetime Hid_plain net w'.
  destruct (answering_with_fetch py_repr (snapshot_data s) datetime timestamp
              w Hlen) as (w2 & (_ & _ & _ & Hlabels & _) & _ & Hfetch).
  assert (main.preview_fetch py_repr net w
          = (Ret (Some (snapshot_data s, (PStr datetime, PInt timestamp))), w2))
    as Hfetch'.
  { rewrite <-Hfetch, !(preview_fetch_run py_repr _ w Hlen). cbv zeta.
    subst net. by rewrite !answering_is_answering_with by auto. }
  destruct (snapshot_data_fields s) as (Hcur & Hq & Hid).
  destruct (tick_display_run py_repr net w w2 _ datetime (PInt timestamp)
              _ _ _ Hfetch' Hlabels Hq Hid Hcur)
    as (Hret & Hobs & Hlq & Hlid & Hlt).
  rewrite variant_of_name in Hobs.
  rewrite (qt_text_plain datetime Hdatetime) in Hlt.
  subst w'.
  split; [done|]. split; [done|]. split; [done|]. split; [|split; [done|]].
  - rewrite Hlid. destruct (charge_id s) as [text|]; [|done].
    by rewrite (qt_text_plain text (Hid_plain text eq_refl)).
  - by rewrite tick_status, Hobs.
Qed.

(** Third in the queue, with request number T7. *)
Lemma tick_displays_the_snapshot_witness :
  let w := deliver repr_unused logged_in
             (timer (answering (Snapshot WaitingStage1 3 (Some "T7")) "12:00" 0)) in
  py_len_is_zero (TOKEN logged_in) = Ret false /\
  main.starts_with_mark "12:00" = false /\
  main.starts_with_mark "T7" = false /\
  labels w !! "queue_position_label" = Some "前有3人" /\
  labels w !! "request_id_label" = Some "T7" /\
  labels w !! "status_label" = Some "在等候区等待".
Proof.
  cbv zeta. split; [reflexivity|]. split; [reflexivity|]. split; [reflexivity|].
  destruct (tick_displays_the_snapshot repr_unused
              (Snapshot WaitingStage1 3 (Some "T7")) "12:00" 0 logged_in)
    as (_ & _ & Hq & Hid & _ & Hs);
    [reflexivity | reflexivity | by intros text [= <-] |].
  split; [exact Hq|]. split; [exact Hid | exact Hs].
Defined.

(** X13.  When the queue comes back without a [queue_len] (a [null], a
    list, an object without that key), the tick raises the [TypeError] or
    [KeyError] of the lookup after both requests were made, and leaves no
    trace: no label, no toast and no [last_state] is written. *)
Theorem tick_without_queue_len_raises py_repr data datetime timestamp w :
  py_len_is_zero (TOKEN w) = Ret false ->
  (forall d, data = PDict d -> d !! "queue_len" = None) ->
  let net := answering_with data datetime timestamp in
  let w' := deliver py_repr w (timer net) in
  fst (main.preview_callback py_repr net w) =
    Raise (match data with
           | PDict _ => Exc KeyError (PStr "queue_len")
           | _ => Exc TypeError PNone
           end) /\
  labels w' = labels w /\ toasts w' = toasts w /\
  last_state w' = last_state w /\ TOKEN w' = TOKEN w /\
  length (requested (main.preview_callback py_repr net) w) = 2%nat.
Proof.
  intros Hlen Hdata net w'.
  destruct (answering_with_fetch py_repr data datetime timestamp w Hlen)
    as (w2 & (HT & HL & _ & Hlabels & Htoasts) & Hsent & Hfetch).
  assert (py_getitem data "queue_len" =
            Raise (match data with
                   | PDict _ => Exc KeyError (PStr "queue_len")
                   | _ => Exc TypeError PNone
                   end)) as Hq.
  { destruct data as [| | | | | |d]; try done.
    simpl. by rewrite (Hdata d eq_refl). }
  assert (main.preview_callback py_repr net w =
            (Raise (match data with
                    | PDict _ => Exc KeyError (PStr "queue_len")
                    | _ => Exc TypeError PNone
                    end), w2)) as Hrun.
  { unfold main.preview_callback, bind. subst net. rewrite Hfetch.
    unfold main.preview_show_queue, bind, lift. by rewrite Hq. }
  subst w'. unfold deliver, requested. cbn [slot]. rewrite Hrun. simpl.
  repeat split; try done.
  rewrite length_drop. lia.
Qed.

(** The service has nothing to report and says so with [null]. *)
Lemma tick_without_queue_len_raises_witness :
  let net := answering_with PNone "12:00" 0 in
  py_len_is_zero (TOKEN logged_in) = Ret false /\
  fst (main.preview_callback repr_unused net logged_in)
    = Raise (Exc TypeError PNone) /\
  labels (deliver repr_unused logged_in (timer net)) = labels logged_in.
Proof.
  cbv zeta. split; [reflexivity|].
  destruct (tick_without_queue_len_raises repr_unused PNone "12:00" 0 logged_in)
    as (Hraise & Hlabels & _); [reflexivity | discriminate |].
  split; [exact Hraise | exact Hlabels].
Defined.

(** ** The slots that make one call *)

Section OneCall.
Variable py_repr : pyval -> string.
Variable net : request -> net_outcome.

(** A slot of the shape
    [try: call  except ApiError as e: toast(str(e)); return] and then
    [toast(ok)], when the call issues [r] and discards what is returned. *)
Lemma one_call_run (body : M (option unit)) ok w r :
  body w = (match handed_on (net r) with
            | Ret _ => Ret (Some tt)
            | Raise e => Raise e
            end, add_sent r w) ->
  (let* x := try_ body (main.toast_and_return py_repr) in
   match x with
   | None => ret tt
   | Some _ => main.showMessage (Notice ok)
   end) w =
    match handed_on (net r) with
    | Ret _ => (Ret tt, add_toast (Notice ok) (add_sent r w))
    | Raise e =>
        if isinstance e ApiError
        then (Ret tt,
              add_toast (ErrorToast (py_str py_repr (exc_arg e))) (add_sent r w))
        else (Raise e, add_sent r w)
    end.
Proof.
  intros Hbody. unfold bind, try_. rewrite Hbody.
  destruct (handed_on (net r)) as [data|e]; simpl; [done|].
  by destruct (isinstance e ApiError).
Qed.

Lemma one_call_reports (m : M unit) ok w r :
  m w = match handed_on (net r) with
        | Ret _ => (Ret tt, add_toast (Notice ok) (add_sent r w))
        | Raise e =>
            if isinstance e ApiError
            then (Ret tt,
                  add_toast (ErrorToast (py_str py_repr (exc_arg e))) (add_sent r w))
            else (Raise e, add_sent r w)
        end ->
  requested m w = [r] /\ reports py_repr m w (handed_on (net r)) ok /\
  only_reports w (snd (m w)).
Proof.
  intros Hm. unfold reports, requested, shown. rewrite Hm.
  destruct (handed_on (net r)) as [data|e]; simpl;
    [|destruct (isinstance e ApiError); simpl];
    rewrite ?drop_app_length, ?drop_all; by repeat split.
Qed.

Lemma on_register_clicked_run w empty :
  py_len_is_zero (TOKEN w) = Ret empty ->
  let r := request_with py_repr (TOKEN w) empty POST "/user/register"
             (Some (PDict {[ "username" := PStr (username_input (window w));
                             "password" := PStr (password_input (window w));
                             "re_password" := PStr (password_input (window w)) ]})) in
  requested (main.on_register_clicked py_repr net) w = [r] /\
  reports py_repr (main.on_register_clicked py_repr net) w (handed_on (net r))
    "注册成功" /\
  only_reports w (snd (main.on_register_clicked py_repr net w)).
Proof.
  intros Hlen r. apply one_call_reports. unfold main.on_register_clicked.
  apply one_call_run.
  unfold api.register, bind, gets. rewrite api_post_run, Hlen. fold r.
  cbv zeta. by destruct (handed_on (net r)).
Qed.

Lemma on_submit_clicked_run w empty :
  py_len_is_zero (TOKEN w) = Ret empty ->
  let mode := if String.eqb (charge_mode_box (window w)) "快充" then "F" else "T" in
  let r := request_with py_repr (TOKEN w) empty POST "/user/submit_charging_request"
             (Some (PDict {[ "charge_mode" := PStr mode;
                             "require_amount" := PStr (require_amount_input (window w));
                             "battery_size" := PStr (battery_capacity_input (window w)) ]})) in
  requested (main.on_submit_clicked py_repr net) w = [r] /\
  reports py_repr (main.on_submit_clicked py_repr net) w (handed_on (net r))
    "请求提交成功" /\
  only_reports w (snd (main.on_submit_clicked py_repr net w)).
Proof.
  intros Hlen mode r. apply one_call_reports. unfold main.on_submit_clicked.
  apply one_call_run.
  unfold api.submit_charging_request, bind, gets. rewrite api_post_run, Hlen.
  fold mode r. cbv zeta. by destruct (handed_on (net r)).
Qed.

Lemma on_edit_request_clicked_run w empty :
  py_len_is_zero (TOKEN w) = Ret empty ->
  let mode := if String.eqb (charge_mode_box (window w)) "快充" then "F" else "T" in
  let r := request_with py_repr (TOKEN w) empty POST "/user/edit_charging_request"
             (Some (PDict {[ "charge_mode" := PStr mode;
                             "require_amount" := PStr (require_amount_input (window w)) ]})) in
  requested (main.on_edit_request_clicked py_repr net) w = [r] /\
  reports py_repr (main.on_edit_request_clicked py_repr net) w (handed_on (net r))
    "修改充电请求成功" /\
  only_reports w (snd (main.on_edit_request_clicked py_repr net w)).
Proof.
  intros Hlen mode r. apply one_call_reports. unfold main.on_edit_request_clicked.
  apply one_call_run.
  unfold api.edit_charging_request, bind, gets. rewrite api_post_run, Hlen.
  fold mode r. cbv zeta. by destruct (handed_on (net r)).
Qed.

Lemma on_end_request_clicked_run w empty :
  py_len_is_zero (TOKEN w) = Ret empty ->
  let r := request_with py_repr (TOKEN w) empty GET "/user/end_charging_request"
             None in
  requested (main.on_end_request_clicked py_repr net) w = [r] /\
  reports py_repr (main.on_end_request_clicked py_repr net) w (handed_on (net r))
    "已结束请求" /\
  only_reports w (snd (main.on_end_request_clicked py_repr net w)).
Proof.
  intros Hlen r. apply one_call_reports. unfold main.on_end_request_clicked.
  apply one_call_run.
  unfold api.end_charging_request, bind. rewrite api_get_run, Hlen. fold r.
  cbv zeta. by destruct (handed_on (net r)).
Qed.
End OneCall.

(** X14.  Registering, submitting, editing and ending each issue exactly
    one request, and it carries the texts of the inputs as they are, empty or
    not: the password twice, as [password] and as [re_password]; the amount
    and the battery size on a submission; the amount but no battery size on
    an edit; nothing on an end, which is a GET. *)
Theorem requests_carry_the_inputs py_repr net w empty :
  py_len_is_zero (TOKEN w) = Ret empty ->
  let f := window w in
  exists r_register r_submit r_edit r_end,
    requested (main.on_register_clicked py_repr net) w = [r_register] /\
    requested (main.on_submit_clicked py_repr net) w = [r_submit] /\
    requested (main.on_edit_request_clicked py_repr net) w = [r_edit] /\
    requested (main.on_end_request_clicked py_repr net) w = [r_end] /\
    req_method r_register = POST /\
    json_field r_register "username" = Some (PStr (username_input f)) /\
    json_field r_register "password" = Some (PStr (password_input f)) /\
    json_field r_register "re_password" = Some (PStr (password_input f)) /\
    req_method r_submit = POST /\
    json_field r_submit "require_amount" = Some (PStr (require_amount_input f)) /\
    json_field r_submit "battery_size" = Some (PStr (battery_capacity_input f)) /\
    req_method r_edit = POST /\
    json_field r_edit "require_amount" = Some (PStr (require_amount_input f)) /\
    json_field r_edit "battery_size" = None /\
    req_method r_end = GET /\
    req_url r_end = api.BASE_URL +:+ "/user/end_charging_request" /\
    req_json r_end = None.
Proof.
  intros Hlen f.
  destruct (on_register_clicked_run py_repr net w empty Hlen) as (Hr & _).
  destruct (on_submit_clicked_run py_repr net w empty Hlen) as (Hs & _).
  destruct (on_edit_request_clicked_run py_repr net w empty Hlen) as (He & _).
  destruct (on_end_request_clicked_run py_repr net w empty Hlen) as (Hd & _).
  eexists _, _, _, _.
  split; [exact Hr|]. split; [exact Hs|]. split; [exact He|]. split; [exact Hd|].
  unfold json_field, request_with; simpl.
  repeat split;
    by rewrite ?lookup_insert_eq, ?lookup_insert_ne, ?lookup_singleton_eq,
         ?lookup_singleton_ne.
Qed.

(** Alice registers. *)
Lemma requests_carry_the_inputs_witness :
  exists r,
    requested (main.on_register_clicked repr_unused (replying (envelope 0 "" PNone)))
      (main.start alice ∅) = [r] /\
    json_field r "re_password" = Some (PStr "secret").
Proof.
  destruct (requests_carry_the_inputs repr_unused (replying (envelope 0 "" PNone))
              (main.start alice ∅) true)
    as (r & _ & _ & _ & Hr & _ & _ & _ & _ & _ & _ & Hre & _); [reflexivity|].
  exists r. split; [exact Hr | exact Hre].
Defined.

(** X15.  The register, submit, edit and end slots report each outcome once
    and as it is: the text of success when the call returned, the message of
    the [ApiError] unchanged when it raised one, and nothing when a
    [KeyError] or [TypeError] passes through.  Whatever the outcome they
    write neither [TOKEN] nor [last_state] nor a label. *)
Theorem one_call_slots_report_the_outcome py_repr net w empty :
  py_len_is_zero (TOKEN w) = Ret empty ->
  reports_one_call py_repr net (main.on_register_clicked py_repr net) w
    "注册成功" /\
  reports_one_call py_repr net (main.on_submit_clicked py_repr net) w
    "请求提交成功" /\
  reports_one_call py_repr net (main.on_edit_request_clicked py_repr net) w
    "修改充电请求成功" /\
  reports_one_call py_repr net (main.on_end_request_clicked py_repr net) w
    "已结束请求".
Proof.
  intros Hlen. repeat split; eexists.
  - apply (on_register_clicked_run py_repr net w empty Hlen).
  - apply (on_submit_clicked_run py_repr net w empty Hlen).
  - apply (on_edit_request_clicked_run py_repr net w empty Hlen).
  - apply (on_end_request_clicked_run py_repr net w empty Hlen).
Qed.

(** The service refuses to end a request that does not exist. *)
Lemma one_call_slots_report_the_outcome_witness :
  let net := replying (envelope (-1) "没有充电请求" PNone) in
  py_len_is_zero (TOKEN logged_in) = Ret false /\
  shown (main.on_end_request_clicked repr_unused net) logged_in
    = [ErrorToast "没有充电请求"].
Proof.
  cbv zeta. split; [reflexivity|].
  destruct (one_call_slots_report_the_outcome repr_unused
              (replying (envelope (-1) "没有充电请求" PNone)) logged_in false
              eq_refl)
    as (_ & _ & _ & r & _ & Hreports & _).
  unfold reports in Hreports. simpl in Hreports.
  destruct Hreports as [_ Hshown]. exact Hshown.
Defined.

(** ** Logging in, and asking for the bills *)

(** X16.  [login] needs a [token] and an [is_admin] in what the service
    returns: from a [dict] with both it returns the two values as they are;
    from a [dict] without one of them it raises [KeyError]; from anything
    else, a [null] included, it raises [TypeError]. *)
Theorem login_decodes_token_and_flag py_repr code message data u p w empty :
  py_len_is_zero (TOKEN w) = Ret empty ->
  code <> -1 ->
  fst (api.login py_repr (replying (envelope code message data)) u p w) =
    match data with
    | PDict d =>
        match d !! "token", d !! "is_admin" with
        | Some token, Some is_admin => Ret (token, is_admin)
        | Some _, None => Raise (Exc KeyError (PStr "is_admin"))
        | None, _ => Raise (Exc KeyError (PStr "token"))
        end
    | _ => Raise (Exc TypeError PNone)
    end.
Proof.
  intros Hlen Hcode. unfold api.login, bind, lift.
  rewrite api_post_run, Hlen. cbv zeta. unfold replying.
  rewrite handed_on_envelope by done.
  destruct data as [| | | | | |d]; try done. simpl.
  destruct (d !! "token"); [|done]. by destruct (d !! "is_admin").
Qed.

(** A service that forgets the flag. *)
Lemma login_decodes_token_and_flag_witness :
  fst (api.login repr_unused
         (replying (envelope 0 "" (PDict {[ "token" := PStr "tok" ]})))
         "alice" "secret" (main.start alice ∅))
    = Raise (Exc KeyError (PStr "is_admin")).
Proof.
  rewrite (login_decodes_token_and_flag repr_unused 0 ""
             (PDict {[ "token" := PStr "tok" ]}) "alice" "secret"
             (main.start alice ∅) true);
    [reflexivity | reflexivity | discriminate].
Defined.

(** X17.  A login that raises changes nothing: the token, the labels and
    [last_state] are as before.  An [ApiError] is shown with its message and
    the slot returns; a [KeyError] or [TypeError] from a malformed answer
    leaves the slot without any toast. *)
Theorem failed_login_changes_nothing py_repr net w e :
  fst (api.login py_repr net (username_input (window w))
         (password_input (window w)) w) = Raise e ->
  let w' := deliver py_repr w (login_button net) in
  TOKEN w' = TOKEN w /\ labels w' = labels w /\ last_state w' = last_state w /\
  if isinstance e ApiError
  then fst (main.on_login_clicked py_repr net w) = Ret tt /\
       shown (main.on_login_clicked py_repr net) w
         = [ErrorToast (py_str py_repr (exc_arg e))]
  else fst (main.on_login_clicked py_repr net w) = Raise e /\
       shown (main.on_login_clicked py_repr net) w = [].
Proof.
  intros Hlogin.
  pose proof (login_keeps py_repr net (username_input (window w))
                (password_input (window w)) w) as (HT & HL & _ & Hlabels & Htoasts).
  unfold deliver, shown. cbn [slot].
  unfold main.on_login_clicked, bind, try_, gets.
  destruct (api.login py_repr net _ _ w) as [[r|e'] w1]; simpl in *;
    [discriminate|].
  injection Hlogin as ->.
  destruct (isinstance e ApiError); simpl;
    rewrite ?Htoasts, ?drop_app_length, ?drop_all; by repeat split.
Qed.

(** A wrong password, and an answer without a token. *)
Lemma failed_login_changes_nothing_witness :
  let refused := replying (envelope (-1) "密码错误" PNone) in
  let broken := replying (envelope 0 "" PNone) in
  shown (main.on_login_clicked repr_unused refused) (main.start alice ∅)
    = [ErrorToast "密码错误"] /\
  fst (main.on_login_clicked repr_unused broken (main.start alice ∅))
    = Raise (Exc TypeError PNone) /\
  TOKEN (deliver repr_unused (main.start alice ∅) (login_button broken)) = PStr "".
Proof.
  cbv zeta. split; [|split].
  - destruct (failed_login_changes_nothing repr_unused
                (replying (envelope (-1) "密码错误" PNone)) (main.start alice ∅)
                (api.ApiError_ (PStr "密码错误")))
      as (_ & _ & _ & _ & Hshown); [vm_compute; reflexivity | exact Hshown].
  - destruct (failed_login_changes_nothing repr_unused
                (replying (envelope 0 "" PNone)) (main.start alice ∅)
                (Exc TypeError PNone))
      as (_ & _ & _ & Hraise & _); [vm_compute; reflexivity | exact Hraise].
  - destruct (failed_login_changes_nothing repr_unused
                (replying (envelope 0 "" PNone)) (main.start alice ∅)
                (Exc TypeError PNone))
      as (Htoken & _); [vm_compute; reflexivity | exact Htoken].
Defined.

Section Bills.
Variable py_repr : pyval -> string.
Variable net : request -> net_outcome.

Lemma time_run w empty :
  py_len_is_zero (TOKEN w) = Ret empty ->
  let r := request_with py_repr (TOKEN w) empty GET "/time" None in
  api.time py_repr net w =
    (match handed_on (net r) with
     | Raise e => Raise e
     | Ret t =>
         match py_getitem t "datetime" with
         | Raise e => Raise e
         | Ret datetime =>
             match py_getitem t "timestamp" with
             | Raise e => Raise e
             | Ret timestamp => Ret (datetime, timestamp)
             end
         end
     end, add_sent r w).
Proof.
  intros Hlen. cbv zeta. unfold api.time, bind, lift.
  rewrite api_get_run, Hlen. cbv zeta.
  destruct (handed_on (net _)) as [t|e]; [|done].
  destruct (py_getitem t "datetime"); [|done].
  by destruct (py_getitem t "timestamp").
Qed.
End Bills.

(** X18.  Asking for the bills first asks the service for the time, and
    then asks for the bills of exactly the [datetime] it was given.  When
    the time cannot be had, the bills are not asked for: an [ApiError] is
    shown, and a [KeyError] or [TypeError] (the answer lacks [datetime] or
    [timestamp]) leaves the slot. *)
Theorem bills_are_asked_for_the_service_date py_repr net w empty :
  py_len_is_zero (TOKEN w) = Ret empty ->
  let fetch := main.on_checklist_clicked_fetch py_repr net in
  let r_time := request_with py_repr (TOKEN w) empty GET "/time" None in
  (forall dt timestamp,
     fst (api.time py_repr net w) = Ret (dt, timestamp) ->
     requested fetch w =
       [r_time;
        request_with py_repr (TOKEN w) empty POST "/user/query_bill"
          (Some (PDict {[ "date" := dt ]}))]) /\
  (forall e,
     fst (api.time py_repr net w) = Raise e ->
     requested fetch w = [r_time] /\
     if isinstance e ApiError
     then fst (fetch w) = Ret None /\
          shown fetch w = [ErrorToast (py_str py_repr (exc_arg e))]
     else fst (fetch w) = Raise e /\ shown fetch w = []).
Proof.
  intros Hlen. cbv zeta.
  unfold requested, shown, main.on_checklist_clicked_fetch, try_, bind.
  rewrite (time_run py_repr net w empty Hlen). cbv zeta.
  destruct (match handed_on _ with Ret _ => _ | Raise e => Raise e end)
    as [[dt' ts']|e'] eqn:Htime; simpl; split.
  - intros dt ts [= <- <-]. unfold api.query_bill.
    rewrite api_post_run. simpl TOKEN. rewrite Hlen. cbv zeta.
    destruct (handed_on (net (request_with _ _ _ POST _ _))) as [bills|e]; simpl.
    + by rewrite <-app_assoc, drop_app_length.
    + destruct (isinstance e ApiError); simpl;
        by rewrite <-app_assoc, drop_app_length.
  - intros e. discriminate.
  - intros dt ts. discriminate.
  - intros e [= <-].
    destruct (isinstance e' ApiError); simpl;
      rewrite ?drop_app_length, ?drop_all; by repeat split.
Qed.

(** The bills of the first of June. *)
Lemma bills_are_asked_for_the_service_date_witness :
  map (fun r => json_field r "date")
    (requested (main.on_checklist_clicked_fetch repr_unused (reporting Charging))
       logged_in)
    = [None; Some (PStr "2023-06-01 08:00:00")].
Proof.
  destruct (bills_are_asked_for_the_service_date repr_unused (reporting Charging)
              logged_in false eq_refl) as [Hok _].
  rewrite (Hok (PStr "2023-06-01 08:00:00") (PInt 1685606400));
    [reflexivity | vm_compute; reflexivity].
Defined.

(** ** Ticks with an unusual time or request number *)

(** A [null] for the time blanks the time label and the tick goes on: it
    shows the status and sets [last_state], and the next tick that observes
    NotCharging shows the completion toast. *)
Example tick_with_null_time :
  let w := deliver repr_unused logged_in (timer (reporting_without_time Charging)) in
  fst (main.preview_callback repr_unused (reporting_without_time Charging) logged_in)
    = Ret tt /\
  observed repr_unused (reporting_without_time Charging) logged_in = Some Charging /\
  labels w !! "time_label" = Some "" /\
  labels w !! "status_label" = Some "正在充电" /\
  last_state w = 1 /\
  notified repr_unused (reporting_without_time NotCharging) w = 1%nat.
Proof. vm_compute. repeat split. Qed.

(** A byte-order mark in front of the request number and of the time is not
    displayed. *)
Example mark_is_not_displayed :
  let w := deliver repr_unused logged_in
             (timer (answering
                       (Snapshot Charging 0 (Some (main.byte_order_mark +:+ "T7")))
                       (main.byte_order_mark +:+ "12:00") 0)) in
  labels w !! "request_id_label" = Some "T7" /\
  labels w !! "time_label" = Some "12:00".
Proof. vm_compute. repeat split. Qed.
